(** * TrachQuiz: the PC/SC UID reader ([pcsc_uid.py])

    A shallow embedding of [pcsc_uid.py]: the one-shot UID read
    ([read_uid_hex], [_read_uid_windows], [_read_uid_macos]) and the
    event-driven reader ([NFCReader.wait_for_card], [NFCReader.read_uid]).

    Conventions of the embedding.
    - Python [int] is [Z]; [bytes] is [list byte]; [str] is [string].
    - The smart-card service (winscard.dll / PCSC.framework) is a record of
      functions [Pcsc] from the arguments of each entry point to what the
      entry point hands back (status code and out-parameters).
    - Every foreign call is logged in a trace of [event]s, so that the
      order of acquisitions and releases can be stated.
    - [raise] / [try ... finally] are the operations of a small
      exception-and-trace monad [M]. *)

From Stdlib Require Import ZArith NArith List String Ascii Bool Lia.
From Stdlib Require Import DecimalString HexadecimalString HexadecimalN.
From Stdlib.Strings Require Import Byte.
Import ListNotations.

Open Scope string_scope.
Open Scope Z_scope.

(** ** Python built-ins used by the module *)

Module Py.

(** Exceptions the module can surface, by class. *)
Inductive exn : Type :=
| RuntimeError (msg : string)
| NoCardDetectedError (msg : string)
| UnicodeDecodeError
| IndexError.

(** An expression either evaluates to a value or raises. *)
Inductive outcome (A : Type) : Type :=
| Returns (a : A)
| Raises (e : exn).
Arguments Returns {A} a.
Arguments Raises {A} e.

Definition len {A} (l : list A) : Z := Z.of_nat (List.length l).

(** [l[i]]: a negative index counts from the end; out of range is an
    [IndexError], rendered here as [None]. *)
Definition getitem {A} (l : list A) (i : Z) : option A :=
  let j := if i <? 0 then i + len l else i in
  if (j <? 0) || (len l <=? j) then None
  else nth_error l (Z.to_nat j).

(** How a slice bound is adjusted to the length of the sequence. *)
Definition clamp (n i : Z) : Z :=
  if i <? 0 then Z.max 0 (i + n) else Z.min i n.

(** [l[start:stop]] with step 1; [None] is an omitted bound. *)
Definition slice {A} (l : list A) (start stop : option Z) : list A :=
  let lo := match start with None => 0 | Some i => clamp (len l) i end in
  let hi := match stop with None => len l | Some i => clamp (len l) i end in
  firstn (Z.to_nat (hi - lo)) (skipn (Z.to_nat lo) l).

(** [s.split(sep)] for a one-character separator. *)
Fixpoint split (sep : ascii) (s : string) : list string :=
  match s with
  | EmptyString => [EmptyString]
  | String c r =>
      if Ascii.eqb c sep then EmptyString :: split sep r
      else match split sep r with
           | h :: t => String c h :: t
           | [] => [String c EmptyString]
           end
  end.

(** Truth value of a string and of an optional string ([None] and the
    empty string are false). *)
Definition truthy_str (s : string) : bool :=
  match s with EmptyString => false | _ => true end.

Definition truthy_opt (o : option string) : bool :=
  match o with None => false | Some s => truthy_str s end.

(** [s.startswith(p)]. *)
Definition startswith (s p : string) : bool := String.prefix p s.

(** [str.upper] on the ASCII range. *)
Definition upper_ascii (c : ascii) : ascii :=
  let n := N_of_ascii c in
  if ((97 <=? n) && (n <=? 122))%N then ascii_of_N (n - 32) else c.

Fixpoint upper (s : string) : string :=
  match s with
  | EmptyString => EmptyString
  | String c r => String (upper_ascii c) (upper r)
  end.

(** One lowercase hexadecimal digit, for [n < 16]. *)
Definition hexdigit (n : N) : ascii :=
  match String.get (N.to_nat n) "0123456789abcdef" with
  | Some c => c
  | None => "?"%char
  end.

(** [bytes.hex()]: two lowercase digits per byte. *)
Definition byte_hex (b : byte) : string :=
  String (hexdigit (Byte.to_N b / 16))
    (String (hexdigit (Byte.to_N b mod 16)) EmptyString).

Fixpoint bytes_hex (b : list byte) : string :=
  match b with
  | [] => EmptyString
  | x :: r => byte_hex x ++ bytes_hex r
  end.

(** The value [b[i]] of a byte as an [int]. *)
Definition int_of_byte (b : byte) : Z := Z.of_N (Byte.to_N b).

(** Left padding with zeros up to [width] characters. *)
Fixpoint zeros (n : nat) : string :=
  match n with O => EmptyString | S k => String "0" (zeros k) end.

Definition zfill (width : nat) (s : string) : string :=
  zeros (width - String.length s) ++ s.

(** [format(z, "0<width>X")]: uppercase hexadecimal, sign-aware zero
    padding (the sign counts in the width). *)
Definition format_0X (width : nat) (z : Z) : string :=
  let digits := upper (HexadecimalString.NilZero.string_of_uint (N.to_hex_uint (Z.abs_N z))) in
  if z <? 0 then "-" ++ zfill (width - 1) digits
  else zfill width digits.

(** [str(z)]: decimal. *)
Definition str_of_int (z : Z) : string :=
  DecimalString.NilZero.string_of_int (Z.to_int z).

End Py.
Import Py.

(** ** Module constants *)

Definition SCARD_S_SUCCESS : Z := 0.
Definition SCARD_E_NO_SMARTCARD : Z := 0x8010000C.
Definition SCARD_W_REMOVED_CARD : Z := 0x80100069.
Definition SCARD_E_TIMEOUT : Z := 0x8010000A.

Definition SCARD_SCOPE_USER : Z := 0.
Definition SCARD_SHARE_SHARED : Z := 2.
Definition SCARD_PROTOCOL_T0 : Z := 1.
Definition SCARD_PROTOCOL_T1 : Z := 2.
Definition SCARD_LEAVE_CARD : Z := 0.

Definition SCARD_STATE_UNAWARE : Z := 0x00000000.
Definition SCARD_STATE_UNAVAILABLE : Z := 0x00000008.
Definition SCARD_STATE_EMPTY : Z := 0x00000010.
Definition SCARD_STATE_PRESENT : Z := 0x00000020.

(** [GET_UID = bytes.fromhex("FF CA 00 00 00")]. *)
Definition GET_UID : list byte := [xff; xca; x00; x00; x00].

(** [_hex(b) = b.hex().upper()]. *)
Definition _hex (b : list byte) : string := upper (bytes_hex b).

(** The signed 32-bit reading of a status code, as a foreign call whose
    result type is a C [int] hands it to Python. *)
Definition as_signed32 (rv : Z) : Z :=
  let u := rv mod 2 ^ 32 in
  if u <? 2 ^ 31 then u else u - 2 ^ 32.

(** [wintypes.DWORD(z).value]: a 32-bit unsigned cell wraps silently. *)
Definition DWORD (z : Z) : Z := z mod 2 ^ 32.

(** ** The smart-card service and the trace of foreign calls *)

(** What [SCardGetStatusChange] writes back into the reader-state array
    (one element): its status and the output fields of the element. *)
Record StatusChange : Type := {
  sc_rv : Z;
  sc_dwEventState : Z;
  sc_cbAtr : Z;
  sc_rgbAtr : list byte
}.

(** The entry points of the loaded library. Each maps its arguments to the
    status code and the out-parameters (on Windows the reader-name entry
    points are the wide-character variants). *)
Record Pcsc : Type := {
  (* scope -> rv, hcontext *)
  SCardEstablishContext : Z -> Z * Z;
  (* hcontext -> rv, pcch : the size query, with no buffer *)
  SCardListReaders_size : Z -> Z * Z;
  (* hcontext, pcch -> rv, contents of the buffer *)
  SCardListReaders : Z -> Z -> Z * string;
  (* hcontext, reader, share mode, protocols -> rv, hcard, active protocol *)
  SCardConnect : Z -> string -> Z -> Z -> Z * Z * Z;
  (* hcard, protocol, command -> rv, receive buffer, received length *)
  SCardTransmit : Z -> Z -> list byte -> Z * list byte * Z;
  (* hcontext, timeout, szReader, dwCurrentState -> what is written back *)
  SCardGetStatusChange : Z -> Z -> option string -> Z -> StatusChange
}.

(** One entry of the trace per foreign call, with its arguments and the
    status it returned. *)
Inductive event : Type :=
| EvEstablishContext (scope rv hcontext : Z)
| EvListReaders (hcontext : Z) (with_buffer : bool) (rv : Z)
| EvConnect (hcontext : Z) (reader : string) (share protocols rv hcard : Z)
| EvTransmit (hcard : Z) (command : list byte) (rv : Z)
| EvDisconnect (hcard disposition : Z)
| EvReleaseContext (hcontext : Z)
| EvGetStatusChange (hcontext timeout : Z) (szReader : option string)
    (dwCurrentState rv : Z).

(** ** Exceptions, [try ... finally] and the trace, as a monad *)

Definition M (A : Type) : Type := list event -> outcome A * list event.

Definition ret {A} (a : A) : M A := fun t => (Returns a, t).

Definition raise {A} (e : exn) : M A := fun t => (Raises e, t).

Definition bind {A B} (m : M A) (k : A -> M B) : M B :=
  fun t =>
    match m t with
    | (Returns a, t') => k a t'
    | (Raises e, t') => (Raises e, t')
    end.

(** A foreign call: it is appended to the trace. *)
Definition call (e : event) : M unit := fun t => (Returns tt, (t ++ [e])%list).

(** [try: body finally: fin]. The clean-up runs on every exit of [body];
    the outcome is the one of [body] unless the clean-up itself raises. *)
Definition try_finally {A} (body : M A) (fin : M unit) : M A :=
  fun t =>
    let '(r, t1) := body t in
    match fin t1 with
    | (Returns _, t2) => (r, t2)
    | (Raises e, t2) => (Raises e, t2)
    end.

Definition lift {A} (o : outcome A) : M A := fun t => (o, t).

(** Outcome and trace of a computation started on the empty trace. *)
Definition run {A} (m : M A) : outcome A * list event := m [].

Notation "x <- m ;; k" := (bind m (fun x => k))
  (at level 61, m at next level, right associativity).
Notation "m ;;; k" := (bind m (fun _ => k))
  (at level 61, right associativity).

(** ** Decoding the response (lines 100-106 and 323-329)

    [resp] is [recv_buf.raw[:recv_len.value]]. *)
Definition decode_response (resp : list byte) : outcome string :=
  if len resp <? 2 then Raises (RuntimeError "Short response")
  else
    let data := slice resp None (Some (-2)) in
    match getitem resp (-2), getitem resp (-1) with
    | Some b1, Some b2 =>
        let sw1 := int_of_byte b1 in
        let sw2 := int_of_byte b2 in
        if negb ((sw1 =? 0x90) && (sw2 =? 0x00)) then
          Raises (RuntimeError
                    ("GET_UID failed: SW=" ++ format_0X 2 sw1 ++ format_0X 2 sw2))
        else Returns (_hex data)
    | _, _ => Raises IndexError
    end.

Definition NUL : ascii := "000"%char.

(** [[s for s in buf.split("\x00") if s]]. *)
Definition reader_names (buf : string) : list string :=
  filter truthy_str (split NUL buf).

(** ** The one-shot read on Windows *)

Definition _read_uid_windows (winscard : Pcsc) : M string :=
  let '(rv, hcontext) := SCardEstablishContext winscard SCARD_SCOPE_USER in
  call (EvEstablishContext SCARD_SCOPE_USER rv hcontext) ;;;
  if negb (rv =? SCARD_S_SUCCESS) then
    raise (RuntimeError ("SCardEstablishContext failed: 0x" ++ format_0X 8 rv))
  else
  try_finally
    (let '(rv, pcch) := SCardListReaders_size winscard hcontext in
     call (EvListReaders hcontext false rv) ;;;
     if negb (rv =? SCARD_S_SUCCESS) then
       raise (RuntimeError
                ("SCardListReaders(size) failed: 0x" ++ format_0X 8 rv))
     else
     let '(rv, buf) := SCardListReaders winscard hcontext (DWORD pcch) in
     call (EvListReaders hcontext true rv) ;;;
     if negb (rv =? SCARD_S_SUCCESS) then
       raise (RuntimeError ("SCardListReaders failed: 0x" ++ format_0X 8 rv))
     else
     match reader_names buf with
     | [] => raise (RuntimeError "No PC/SC readers found")
     | reader :: _ =>
         let protocols := Z.lor SCARD_PROTOCOL_T0 SCARD_PROTOCOL_T1 in
         let '(rv, hcard, active_proto) :=
           SCardConnect winscard hcontext reader SCARD_SHARE_SHARED protocols in
         call (EvConnect hcontext reader SCARD_SHARE_SHARED protocols rv hcard) ;;;
         if negb (rv =? SCARD_S_SUCCESS) then
           let rv_unsigned := Z.land rv 0xFFFFFFFF in
           if (rv_unsigned =? SCARD_W_REMOVED_CARD)
              || (rv_unsigned =? SCARD_E_NO_SMARTCARD)
           then raise (NoCardDetectedError
                         "No smart card present or card removed.")
           else raise (RuntimeError
                         ("SCardConnect failed: 0x" ++ format_0X 8 rv
                          ++ " (" ++ str_of_int rv ++ ")"))
         else
         try_finally
           (let '(rv, raw, recv_len) :=
              SCardTransmit winscard hcard (DWORD active_proto) GET_UID in
            call (EvTransmit hcard GET_UID rv) ;;;
            if negb (rv =? SCARD_S_SUCCESS) then
              raise (RuntimeError
                       ("SCardTransmit failed: 0x" ++ format_0X 8 rv))
            else lift (decode_response (slice raw None (Some (DWORD recv_len)))))
           (call (EvDisconnect hcard SCARD_LEAVE_CARD))
     end)
    (call (EvReleaseContext hcontext)).

(** ** The one-shot read on macOS

    Reader names are byte strings there. A Python [str] is represented by
    its UTF-8 encoding, so [s.decode("utf-8")] is the identity on the valid
    byte strings and raises on the others, and [.encode("utf-8")] is the
    identity. Which byte strings are valid is left to the codec. *)

Section OneShot.

Variable utf8_valid : string -> bool.

Definition _read_uid_macos (pcsc : Pcsc) : M string :=
  let '(rv, hcontext) := SCardEstablishContext pcsc SCARD_SCOPE_USER in
  call (EvEstablishContext SCARD_SCOPE_USER rv hcontext) ;;;
  if negb (rv =? SCARD_S_SUCCESS) then
    raise (RuntimeError ("SCardEstablishContext failed: 0x" ++ format_0X 8 rv))
  else
  try_finally
    (let '(rv, pcch) := SCardListReaders_size pcsc hcontext in
     call (EvListReaders hcontext false rv) ;;;
     if negb (rv =? SCARD_S_SUCCESS) then
       raise (RuntimeError
                ("SCardListReaders(size) failed: 0x" ++ format_0X 8 rv))
     else
     let '(rv, buf) := SCardListReaders pcsc hcontext (DWORD pcch) in
     call (EvListReaders hcontext true rv) ;;;
     if negb (rv =? SCARD_S_SUCCESS) then
       raise (RuntimeError ("SCardListReaders failed: 0x" ++ format_0X 8 rv))
     else
     if negb (forallb utf8_valid (reader_names buf)) then
       raise UnicodeDecodeError
     else
     match reader_names buf with
     | [] => raise (RuntimeError "No PC/SC readers found")
     | reader :: _ =>
         let protocols := Z.lor SCARD_PROTOCOL_T0 SCARD_PROTOCOL_T1 in
         let '(rv, hcard, active_proto) :=
           SCardConnect pcsc hcontext reader SCARD_SHARE_SHARED protocols in
         call (EvConnect hcontext reader SCARD_SHARE_SHARED protocols rv hcard) ;;;
         if negb (rv =? SCARD_S_SUCCESS) then
           raise (RuntimeError ("SCardConnect failed: 0x" ++ format_0X 8 rv))
         else
         try_finally
           (let '(rv, raw, recv_len) :=
              SCardTransmit pcsc hcard (DWORD active_proto) GET_UID in
            call (EvTransmit hcard GET_UID rv) ;;;
            if negb (rv =? SCARD_S_SUCCESS) then
              raise (RuntimeError
                       ("SCardTransmit failed: 0x" ++ format_0X 8 rv))
            else lift (decode_response (slice raw None (Some (DWORD recv_len)))))
           (call (EvDisconnect hcard SCARD_LEAVE_CARD))
     end)
    (call (EvReleaseContext hcontext)).

(** [read_uid_hex]: [lib] is the library the platform branch loads. *)
Definition read_uid_hex (sys_platform : string) (lib : Pcsc) : M string :=
  if startswith sys_platform "win" then _read_uid_windows lib
  else if String.eqb sys_platform "darwin" then _read_uid_macos lib
  else raise (RuntimeError "This build supports Windows and macOS only.").

End OneShot.

(** ** The event-driven reader *)

(** The one element of [reader_states]. *)
Record SCARD_READERSTATE : Type := {
  szReader : option string;
  pvUserData : Z;
  dwCurrentState : Z;
  dwEventState : Z;
  cbAtr : Z;
  rgbAtr : list byte
}.

(** The attributes of an [NFCReader] object. The handle [0] stands for
    both the null handle and [None]. *)
Record NFCReader : Type := {
  hcontext : Z;
  reader_name : option string;
  reader_states : SCARD_READERSTATE
}.

Definition set_reader_name (self : NFCReader) (v : option string) : NFCReader :=
  {| hcontext := hcontext self;
     reader_name := v;
     reader_states := reader_states self |}.

Definition set_reader_states (self : NFCReader) (v : SCARD_READERSTATE)
  : NFCReader :=
  {| hcontext := hcontext self;
     reader_name := reader_name self;
     reader_states := v |}.

Definition set_szReader (st : SCARD_READERSTATE) (v : option string)
  : SCARD_READERSTATE :=
  {| szReader := v; pvUserData := pvUserData st;
     dwCurrentState := dwCurrentState st; dwEventState := dwEventState st;
     cbAtr := cbAtr st; rgbAtr := rgbAtr st |}.

Definition set_dwCurrentState (st : SCARD_READERSTATE) (v : Z)
  : SCARD_READERSTATE :=
  {| szReader := szReader st; pvUserData := pvUserData st;
     dwCurrentState := DWORD v; dwEventState := dwEventState st;
     cbAtr := cbAtr st; rgbAtr := rgbAtr st |}.

(** The fields the service writes during [SCardGetStatusChange]. *)
Definition written_back (st : SCARD_READERSTATE) (sc : StatusChange)
  : SCARD_READERSTATE :=
  {| szReader := szReader st; pvUserData := pvUserData st;
     dwCurrentState := dwCurrentState st;
     dwEventState := DWORD (sc_dwEventState sc);
     cbAtr := DWORD (sc_cbAtr sc); rgbAtr := sc_rgbAtr sc |}.

(** [(SCARD_READERSTATE * 1)()]: a zeroed element. *)
Definition zeroed : SCARD_READERSTATE :=
  {| szReader := None; pvUserData := 0; dwCurrentState := 0;
     dwEventState := 0; cbAtr := 0; rgbAtr := repeat x00 36 |}.

(** [NFCReader.__init__]. *)
Definition NFCReader_init (sys_platform : string) (winscard : Pcsc)
  : M NFCReader :=
  if negb (startswith sys_platform "win") then
    raise (RuntimeError "NFCReader class only supports Windows for now.")
  else
  let '(rv, h) := SCardEstablishContext winscard 0 in
  call (EvEstablishContext 0 rv h) ;;;
  if negb (rv =? 0) then
    raise (RuntimeError ("SCardEstablishContext failed: 0x" ++ format_0X 8 rv))
  else
  ret {| hcontext := h; reader_name := None; reader_states := zeroed |}.

(** [NFCReader.close]. *)
Definition close (self : NFCReader) : M NFCReader :=
  if negb (hcontext self =? 0) then
    call (EvReleaseContext (hcontext self)) ;;;
    ret {| hcontext := 0; reader_name := reader_name self;
           reader_states := reader_states self |}
  else ret self.

(** [NFCReader._get_readers]. *)
Definition _get_readers (winscard : Pcsc) (self : NFCReader) : M (list string) :=
  let '(rv, pcch) := SCardListReaders_size winscard (hcontext self) in
  call (EvListReaders (hcontext self) false rv) ;;;
  if negb (rv =? 0) then ret []
  else
  let '(rv, buf) := SCardListReaders winscard (hcontext self) (DWORD pcch) in
  call (EvListReaders (hcontext self) true rv) ;;;
  if negb (rv =? 0) then ret []
  else ret (reader_names buf).

(** Step 1 of [wait_for_card]: find a reader if none is known. [None] is
    the early [return None]. *)
Definition find_reader (winscard : Pcsc) (self : NFCReader)
  : M (option NFCReader) :=
  if negb (truthy_opt (reader_name self)) then
    readers <- _get_readers winscard self ;;
    match readers with
    | [] => ret None
    | r :: _ =>
        let self := set_reader_name self (Some r) in
        let st := set_szReader (reader_states self) (reader_name self) in
        let st := set_dwCurrentState st SCARD_STATE_UNAWARE in
        ret (Some (set_reader_states self st))
    end
  else ret (Some self).

(** [NFCReader.wait_for_card]: the returned token and the object after the
    call. *)
Definition wait_for_card (winscard : Pcsc) (self : NFCReader) (timeout_ms : Z)
  : M (option string * NFCReader) :=
  found <- find_reader winscard self ;;
  match found with
  | None => ret (None, self)
  | Some self =>
      let st := reader_states self in
      let sc := SCardGetStatusChange winscard (hcontext self)
                  (DWORD timeout_ms) (szReader st) (dwCurrentState st) in
      let rv := sc_rv sc in
      call (EvGetStatusChange (hcontext self) (DWORD timeout_ms)
              (szReader st) (dwCurrentState st) rv) ;;;
      let self := set_reader_states self (written_back st sc) in
      if rv =? 0 then
        let event_state := dwEventState (reader_states self) in
        let self :=
          set_reader_states self
            (set_dwCurrentState (reader_states self) event_state) in
        if negb (Z.land event_state SCARD_STATE_PRESENT =? 0) then
          ret (Some "present", self)
        else if negb (Z.land event_state SCARD_STATE_EMPTY =? 0) then
          ret (Some "empty", self)
        else if negb (Z.land event_state SCARD_STATE_UNAVAILABLE =? 0) then
          ret (Some "unavailable", set_reader_name self None)
        else ret (None, self)
      else if rv =? 0x8010000A then ret (None, self)
      else ret (None, set_reader_name self None)
  end.

Definition bytes_eqb (a b : list byte) : bool :=
  if list_eq_dec Byte.byte_eq_dec a b then true else false.

(** The acceptance test of [read_uid] on the response (lines 255-256):
    [Some uid] is the [return _hex(resp[:-2])], [None] the fall-through. *)
Definition read_uid_decode (resp : list byte) : option string :=
  if (2 <=? len resp) && bytes_eqb (slice resp (Some (-2)) None) [x90; x00]
  then Some (_hex (slice resp None (Some (-2))))
  else None.

(** [NFCReader.read_uid]. The body of the [try] yields [Some uid] when it
    returns from inside and [None] when it falls through to the final
    [return None]. *)
Definition read_uid (winscard : Pcsc) (self : NFCReader) : M (option string) :=
  if negb (truthy_opt (reader_name self)) then ret None
  else
  match reader_name self with
  | None => ret None
  | Some name =>
      let '(rv, hcard, active_proto) :=
        SCardConnect winscard (hcontext self) name 2 3 in
      call (EvConnect (hcontext self) name 2 3 rv hcard) ;;;
      if negb (rv =? 0) then ret None
      else
      try_finally
        (let '(rv, raw, recv_len) :=
           SCardTransmit winscard hcard (DWORD active_proto) GET_UID in
         call (EvTransmit hcard GET_UID rv) ;;;
         if rv =? 0 then
           ret (read_uid_decode (slice raw None (Some (DWORD recv_len))))
         else ret None)
        (call (EvDisconnect hcard 0))
  end.

(** ** A concrete service, for running the model

    One reader ["ACR122U"], context handle 7, card handle 9; the statuses
    of connect, transmit and status-change and the bytes received are
    parameters. *)
Definition service (connect_rv transmit_rv : Z) (resp : list byte)
  (poll_rv poll_event : Z) : Pcsc :=
  {| SCardEstablishContext := fun _ => (0, 7);
     SCardListReaders_size := fun _ => (0, 9);
     SCardListReaders := fun _ _ => (0, "ACR122U" ++ String NUL (String NUL ""));
     SCardConnect := fun _ _ _ _ => (connect_rv, 9, 2);
     SCardTransmit := fun _ _ _ =>
       (transmit_rv, (resp ++ repeat x00 (258 - List.length resp))%list,
        len resp);
     SCardGetStatusChange := fun _ _ _ _ =>
       {| sc_rv := poll_rv; sc_dwEventState := poll_event;
          sc_cbAtr := 0; sc_rgbAtr := [] |} |}.

(** A service that fails to establish a context. *)
Definition no_service : Pcsc :=
  {| SCardEstablishContext := fun _ => (0x8010001D, 0);
     SCardListReaders_size := fun _ => (0x8010001D, 0);
     SCardListReaders := fun _ _ => (0x8010001D, "");
     SCardConnect := fun _ _ _ _ => (0x8010001D, 0, 0);
     SCardTransmit := fun _ _ _ => (0x8010001D, [], 0);
     SCardGetStatusChange := fun _ _ _ _ =>
       {| sc_rv := 0x8010001D; sc_dwEventState := 0;
          sc_cbAtr := 0; sc_rgbAtr := [] |} |}.

(** An [NFCReader] that knows the reader and last saw it empty. *)
Definition watching : NFCReader :=
  {| hcontext := 7; reader_name := Some "ACR122U";
     reader_states := set_dwCurrentState
                        (set_szReader zeroed (Some "ACR122U")) 0x12 |}.

(** An [NFCReader] just constructed. *)
Definition fresh : NFCReader :=
  {| hcontext := 7; reader_name := None; reader_states := zeroed |}.

Definition uid_resp : list byte := [x04; xa2; x3b; x1c; x90; x00].

(** ** Definitions used in the statements *)

(** Following the specification's words ("uppercase hexadecimal string
    derived from the response data bytes"): two digits per byte, high
    nibble first, digits taken from [0-9A-F]. *)
Definition upper_hexdigit (n : N) : ascii :=
  match String.get (N.to_nat n) "0123456789ABCDEF" with
  | Some c => c
  | None => "?"%char
  end.

Fixpoint uppercaseHex (data : list byte) : string :=
  match data with
  | [] => EmptyString
  | b :: r =>
      String (upper_hexdigit (Byte.to_N b / 16))
        (String (upper_hexdigit (Byte.to_N b mod 16)) (uppercaseHex r))
  end.

(** The value of an uppercase hexadecimal digit. *)
Definition nibble_of_digit (c : ascii) : N :=
  let n := N_of_ascii c in
  if (n <? 58)%N then n - 48 else n - 55.

(** The discipline of handles, as an automaton over the trace: a context
    is open between a successful establish and its release, a card
    connection between a successful connect and its disconnect; every call
    uses the handle that is open, and a context is released only when no
    connection is open on it. Any other call breaks the discipline. *)
Inductive phase : Type :=
| Closed
| InContext (h : Z)
| InCard (h hcard : Z)
| Broken.

Definition advance (p : phase) (e : event) : phase :=
  match p, e with
  | Closed, EvEstablishContext _ rv h =>
      if rv =? 0 then InContext h else Closed
  | InContext h, EvListReaders h' _ _ =>
      if h' =? h then InContext h else Broken
  | InContext h, EvGetStatusChange h' _ _ _ _ =>
      if h' =? h then InContext h else Broken
  | InContext h, EvConnect h' _ _ _ rv hcard =>
      if h' =? h then (if rv =? 0 then InCard h hcard else InContext h)
      else Broken
  | InCard h hcard, EvTransmit hcard' _ _ =>
      if hcard' =? hcard then InCard h hcard else Broken
  | InCard h hcard, EvDisconnect hcard' _ =>
      if hcard' =? hcard then InContext h else Broken
  | InContext h, EvReleaseContext h' =>
      if h' =? h then Closed else Broken
  | _, _ => Broken
  end.

Definition phase_after (p : phase) (tr : list event) : phase :=
  fold_left advance tr p.

(** The trace ends with the events [suffix]. *)
Definition ends_with (tr suffix : list event) : Prop :=
  exists before, tr = (before ++ suffix)%list.

(** What the one-shot read guarantees about a trace [tr]: the discipline
    is kept and nothing is left open; a context that was established is
    released by the last call; a connection that was opened is
    disconnected by the call before that. *)
Definition handles_released (tr : list event) : Prop :=
  phase_after Closed tr = Closed
  /\ (forall scope h,
        In (EvEstablishContext scope 0 h) tr ->
        ends_with tr [EvReleaseContext h])
  /\ (forall h reader share protocols hcard,
        In (EvConnect h reader share protocols 0 hcard) tr ->
        ends_with tr [EvDisconnect hcard SCARD_LEAVE_CARD; EvReleaseContext h]).

(** The failures [read_uid] can meet, in the order of its steps. *)
Inductive read_uid_failure (winscard : Pcsc) (self : NFCReader) : Prop :=
| no_reader_known :
    truthy_opt (reader_name self) = false ->
    read_uid_failure winscard self
| connect_failed name rv hcard proto :
    reader_name self = Some name ->
    SCardConnect winscard (hcontext self) name 2 3 = (rv, hcard, proto) ->
    rv <> 0 ->
    read_uid_failure winscard self
| transmit_failed name hcard proto rv raw n :
    reader_name self = Some name ->
    SCardConnect winscard (hcontext self) name 2 3 = (0, hcard, proto) ->
    SCardTransmit winscard hcard (DWORD proto) GET_UID = (rv, raw, n) ->
    rv <> 0 ->
    read_uid_failure winscard self
| short_response name hcard proto raw n :
    reader_name self = Some name ->
    SCardConnect winscard (hcontext self) name 2 3 = (0, hcard, proto) ->
    SCardTransmit winscard hcard (DWORD proto) GET_UID = (0, raw, n) ->
    len (slice raw None (Some (DWORD n))) < 2 ->
    read_uid_failure winscard self
| wrong_status_word name hcard proto raw n :
    reader_name self = Some name ->
    SCardConnect winscard (hcontext self) name 2 3 = (0, hcard, proto) ->
    SCardTransmit winscard hcard (DWORD proto) GET_UID = (0, raw, n) ->
    slice (slice raw None (Some (DWORD n))) (Some (-2)) None <> [x90; x00] ->
    read_uid_failure winscard self.

(** The status-change wait that [wait_for_card] issues for an object whose
    reader is known. *)
Definition poll (winscard : Pcsc) (self : NFCReader) (timeout_ms : Z)
  : StatusChange :=
  SCardGetStatusChange winscard (hcontext self) (DWORD timeout_ms)
    (szReader (reader_states self)) (dwCurrentState (reader_states self)).

(** Following the specification's words: the token decided from the
    event-state bitmask by bit priority, PRESENT (bit 5), else EMPTY
    (bit 4), else UNAVAILABLE (bit 3), else absent. *)
Definition token_of (event_state : Z) : option string :=
  if Z.testbit event_state 5 then Some "present"
  else if Z.testbit event_state 4 then Some "empty"
  else if Z.testbit event_state 3 then Some "unavailable"
  else None.

(** The events of a reader enumeration on the context [h]. *)
Definition is_enumeration (h : Z) (tr : list event) : Prop :=
  exists rv rest,
    tr = EvListReaders h false rv :: rest
    /\ Forall (fun e => exists b rv', e = EvListReaders h b rv') rest.

(** The kinds of fault of a failing one-shot read. The first five are the
    kinds of the specification's taxonomy that the read is said to tell
    apart; [RuntimeFailure] is the specification's kind for a connect
    refused with another status, used here for every service call after
    the establish that fails with a status which is not a "no card" code
    (the code raises the same [RuntimeError] with the status for the two
    list calls, the connect and the transmit); [NameDecodeError] is the
    failure to decode a reader name on the macOS path, which the
    taxonomy does not name. *)
Inductive FaultKind : Type :=
| SubsystemUnavailable
| NoReaderFound
| NoCardDetected
| CardCommandError
| ShortResponse
| RuntimeFailure
| NameDecodeError.

(** The two "no card" codes, after normalising the status to 32 bits. *)
Definition is_no_card (rv : Z) : bool :=
  let rv_unsigned := Z.land rv 0xFFFFFFFF in
  (rv_unsigned =? SCARD_W_REMOVED_CARD)
  || (rv_unsigned =? SCARD_E_NO_SMARTCARD).

(** Which step of the one-shot flow fails in an execution, on either
    platform: the platform or the context (SubsystemUnavailable), an empty
    enumeration (NoReaderFound), a connect refused with a status that is a
    "no card" code once normalised to 32 bits (NoCardDetected), a response
    shorter than two bytes (ShortResponse), a status word other than 90 00
    (CardCommandError), any other service call that fails with a status
    (RuntimeFailure), a reader name that is not valid UTF-8 on macOS
    (NameDecodeError). [None] for an execution in which no step fails. *)
Definition failing_step (utf8_valid : string -> bool) (sys_platform : string)
  (lib : Pcsc) : option FaultKind :=
  let windows := startswith sys_platform "win" in
  if negb windows && negb (String.eqb sys_platform "darwin") then
    Some SubsystemUnavailable
  else
  let '(rv, h) := SCardEstablishContext lib SCARD_SCOPE_USER in
  if negb (rv =? 0) then Some SubsystemUnavailable
  else
  let '(rv, pcch) := SCardListReaders_size lib h in
  if negb (rv =? 0) then Some RuntimeFailure
  else
  let '(rv, buf) := SCardListReaders lib h (DWORD pcch) in
  if negb (rv =? 0) then Some RuntimeFailure
  else
  if negb windows && negb (forallb utf8_valid (reader_names buf)) then
    Some NameDecodeError
  else
  match reader_names buf with
  | [] => Some NoReaderFound
  | reader :: _ =>
      let '(rv, hcard, proto) :=
        SCardConnect lib h reader SCARD_SHARE_SHARED
          (Z.lor SCARD_PROTOCOL_T0 SCARD_PROTOCOL_T1) in
      if negb (rv =? 0) then
        if is_no_card rv then Some NoCardDetected else Some RuntimeFailure
      else
      let '(rv, raw, n) := SCardTransmit lib hcard (DWORD proto) GET_UID in
      if negb (rv =? 0) then Some RuntimeFailure
      else
      let resp := slice raw None (Some (DWORD n)) in
      if len resp <? 2 then Some ShortResponse
      else if bytes_eqb (slice resp (Some (-2)) None) [x90; x00] then None
      else Some CardCommandError
  end.

(** Reading a status back from the text [format_0X] gives it: the value of
    a run of uppercase hexadecimal digits, with an optional sign. *)
Fixpoint hex_value (acc : N) (s : string) : N :=
  match s with
  | EmptyString => acc
  | String c r => hex_value (16 * acc + nibble_of_digit c) r
  end.

Definition parse_status (s : string) : Z :=
  match s with
  | EmptyString => 0
  | String c r =>
      if Ascii.eqb c "-" then - Z.of_N (hex_value 0 r)
      else Z.of_N (hex_value 0 s)
  end.

Definition not_space (c : ascii) : bool := negb (Ascii.eqb c " ").

(** The part of a string before its first space. *)
Fixpoint until_space (s : string) : string :=
  match s with
  | EmptyString => EmptyString
  | String c r =>
      if Ascii.eqb c " " then EmptyString else String c (until_space r)
  end.

(** What follows the prefix [p] in [s], if [s] starts with [p]. *)
Fixpoint strip_prefix (p s : string) : option string :=
  match p, s with
  | EmptyString, _ => Some s
  | String a p', String b s' =>
      if Ascii.eqb a b then strip_prefix p' s' else None
  | String _ _, EmptyString => None
  end.

(** How a caller can tell the kind of a surfaced exception: by its class
    and, for [RuntimeError], by its message; for a refused connect, by the
    status the message carries, normalised to 32 bits like the Windows
    path does. *)
Definition kind_of_exn (e : exn) : option FaultKind :=
  match e with
  | NoCardDetectedError _ => Some NoCardDetected
  | UnicodeDecodeError => Some NameDecodeError
  | IndexError => None
  | RuntimeError msg =>
      if String.eqb msg "This build supports Windows and macOS only."
         || String.prefix "SCardEstablishContext failed: 0x" msg
      then Some SubsystemUnavailable
      else if String.eqb msg "No PC/SC readers found" then Some NoReaderFound
      else if String.eqb msg "Short response" then Some ShortResponse
      else if String.prefix "GET_UID failed: SW=" msg then Some CardCommandError
      else
        match strip_prefix "SCardConnect failed: 0x" msg with
        | Some status =>
            if is_no_card (parse_status (until_space status))
            then Some NoCardDetected
            else Some RuntimeFailure
        | None => Some RuntimeFailure
        end
  end.

(** ** More of the Python built-ins *)

(** ASCII whitespace, as [bytes.fromhex] skips it. *)
Definition isspace (c : ascii) : bool :=
  let n := N_of_ascii c in
  ((9 <=? n) && (n <=? 13) || (n =? 32))%N.

(** The value of a hexadecimal digit of either case; [None] for any other
    character. *)
Definition hexval (c : ascii) : option N :=
  let n := N_of_ascii c in
  if ((48 <=? n) && (n <=? 57))%N then Some (n - 48)%N
  else if ((65 <=? n) && (n <=? 70))%N then Some (n - 55)%N
  else if ((97 <=? n) && (n <=? 102))%N then Some (n - 87)%N
  else None.

(** [bytes.fromhex(s)]: two hexadecimal digits per byte, whitespace
    skipped between the bytes; [None] is the [ValueError]. *)
Fixpoint fromhex (s : string) : option (list byte) :=
  match s with
  | EmptyString => Some []
  | String c r =>
      if isspace c then fromhex r
      else
        match r with
        | EmptyString => None
        | String d r' =>
            match hexval c, hexval d with
            | Some hi, Some lo =>
                match Byte.of_N (16 * hi + lo), fromhex r' with
                | Some b, Some bs => Some (b :: bs)
                | _, _ => None
                end
            | _, _ => None
            end
        end
  end.

(** All the characters of a string pass a test. *)
Fixpoint string_forall (p : ascii -> bool) (s : string) : bool :=
  match s with
  | EmptyString => true
  | String c r => p c && string_forall p r
  end.

(** The characters [0-9] and [A-F]. *)
Definition is_upper_hex (c : ascii) : bool :=
  let n := N_of_ascii c in
  ((48 <=? n) && (n <=? 57) || (65 <=? n) && (n <=? 70))%N.

(** A reader name as the enumeration hands it out: not empty, and without
    the separator. *)
Definition proper_name (name : string) : Prop :=
  name <> EmptyString /\ string_forall (fun c => negb (Ascii.eqb c NUL)) name = true.

(** The watch state names the reader the object knows. *)
Definition watch_consistent (self : NFCReader) : Prop :=
  truthy_opt (reader_name self) = true ->
  szReader (reader_states self) = reader_name self.

(** The events [wait_for_card] can log. *)
Definition is_watch_event (e : event) : bool :=
  match e with
  | EvListReaders _ _ _ => true
  | EvGetStatusChange _ _ _ _ _ => true
  | _ => false
  end.

(** The names the one-shot read enumerates with the library [lib]. *)
Definition enumerated (lib : Pcsc) : list string :=
  let h := snd (SCardEstablishContext lib SCARD_SCOPE_USER) in
  let pcch := snd (SCardListReaders_size lib h) in
  reader_names (snd (SCardListReaders lib h (DWORD pcch))).

(** ** The worker of [server.py]

    [nfc_worker] polls an [NFCReader] for ever; one turn of its loop is
    modelled, and the first turns of the loop over a list of worlds. The
    values of the mapping file are left abstract: [Json] is what
    [json.load] can return, [truthy] its truth value, and [get v key] is
    [v.get(key)]: [None] when [v] has no such method (it is not an
    object, an [AttributeError]), [Some None] when the key is absent,
    [Some (Some x)] for the value [x]. A log line is rendered by its
    kind and arguments, the broadcast message
    [{"type": "answer", "category": c}] by [Broadcast c]. *)

Section Worker.

Variable Json : Type.
Variable truthy : Json -> bool.
Variable get : Json -> string -> option (option Json).

(** What opening and loading [rules/nfc_mapping.json] can do. *)
Inductive mapping_file : Type :=
| FileNotFound
| LoadFails
| Loaded (v : Json).

(** What [load_mapping] returns: the loaded value, or [{}]. *)
Inductive mapping : Type :=
| EmptyDict
| Value (v : Json).

Inductive log_line : Type :=
| MappingNotFound
| MappingError
| NewUid (uid : string)
| Matched (category : Json) (uid : string)
| NotInMapping (uid : string)
| CardRemoved
| ReaderUnavailable
| IterationError.

Inductive action : Type :=
| Log (line : log_line)
| Broadcast (category : Json)
| Sleep.

(** [load_mapping]: what it returns and what it logs. *)
Definition load_mapping (file : mapping_file) : mapping * list action :=
  match file with
  | Loaded v => (Value v, [])
  | FileNotFound => (EmptyDict, [Log MappingNotFound])
  | LoadFails => (EmptyDict, [Log MappingError])
  end.

(** [mapping.get(uid)]. *)
Definition mapping_get (m : mapping) (uid : string) : option (option Json) :=
  match m with
  | EmptyDict => Some None
  | Value v => get v uid
  end.

(** [uid != last_uid], with [last_uid] possibly [None]. *)
Definition differs (uid : string) (last_uid : option string) : bool :=
  match last_uid with
  | None => true
  | Some l => negb (String.eqb uid l)
  end.

Definition status_is (status : option string) (s : string) : bool :=
  match status with
  | Some t => String.eqb t s
  | None => false
  end.

(** One turn of the loop of [nfc_worker]: the body of the inner [try] and
    its [except Exception] handler. It gives the reader object and
    [last_uid] after the turn, and what the turn logged, broadcast and
    slept. *)
Definition nfc_turn (lib : Pcsc) (file : mapping_file) (reader : NFCReader)
  (last_uid : option string)
  : M (NFCReader * option string * list action) :=
  fun t =>
    match wait_for_card lib reader 500 t with
    | (Raises _, t1) => (Returns (reader, last_uid, [Log IterationError; Sleep]), t1)
    | (Returns (status, reader), t1) =>
        if status_is status "present" then
          match read_uid lib reader t1 with
          | (Raises _, t2) =>
              (Returns (reader, last_uid, [Log IterationError; Sleep]), t2)
          | (Returns uid, t2) =>
              match uid with
              | Some u =>
                  if truthy_str u && differs u last_uid then
                    let '(m, logged) := load_mapping file in
                    let said := (Log (NewUid u) :: logged)%list in
                    match mapping_get m u with
                    | None =>
                        (Returns (reader, Some u,
                                  (said ++ [Log IterationError; Sleep])%list), t2)
                    | Some category =>
                        match category with
                        | Some c =>
                            if truthy c then
                              (Returns (reader, Some u,
                                        (said ++ [Log (Matched c u);
                                                  Broadcast c])%list), t2)
                            else
                              (Returns (reader, Some u,
                                        (said ++ [Log (NotInMapping u)])%list), t2)
                        | None =>
                            (Returns (reader, Some u,
                                      (said ++ [Log (NotInMapping u)])%list), t2)
                        end
                    end
                  else (Returns (reader, last_uid, []), t2)
              | None => (Returns (reader, last_uid, []), t2)
              end
          end
        else if status_is status "empty" then
          match last_uid with
          | Some _ => (Returns (reader, None, [Log CardRemoved]), t1)
          | None => (Returns (reader, last_uid, []), t1)
          end
        else if status_is status "unavailable" then
          (Returns (reader, last_uid, [Log ReaderUnavailable; Sleep]), t1)
        else (Returns (reader, last_uid, []), t1)
    end.

(** The first turns of the loop, one world (library and mapping file) per
    turn. *)
Fixpoint nfc_turns (worlds : list (Pcsc * mapping_file)) (reader : NFCReader)
  (last_uid : option string)
  : M (NFCReader * option string * list action) :=
  match worlds with
  | [] => ret (reader, last_uid, [])
  | (lib, file) :: rest =>
      r <- nfc_turn lib file reader last_uid ;;
      let '(reader1, last1, acts1) := r in
      r' <- nfc_turns rest reader1 last1 ;;
      let '(reader2, last2, acts2) := r' in
      ret (reader2, last2, (acts1 ++ acts2)%list)
  end.

(** The number of broadcasts among some actions. *)
Fixpoint broadcasts (acts : list action) : nat :=
  match acts with
  | [] => O
  | Broadcast _ :: r => S (broadcasts r)
  | _ :: r => broadcasts r
  end.

End Worker.

Arguments FileNotFound {Json}.
Arguments LoadFails {Json}.
Arguments Loaded {Json} v.
Arguments Log {Json} line.
Arguments Broadcast {Json} category.
Arguments Sleep {Json}.
Arguments MappingNotFound {Json}.
Arguments MappingError {Json}.
Arguments NewUid {Json} uid.
Arguments Matched {Json} category uid.
Arguments NotInMapping {Json} uid.
Arguments CardRemoved {Json}.
Arguments ReaderUnavailable {Json}.
Arguments IterationError {Json}.
Arguments broadcasts {Json} acts.

(** A mapping file for running the worker: JSON values are strings, the
    file maps the one UID ["04A23B1C"] to ["history"]. *)
Definition demo_get (v : string) (key : string) : option (option string) :=
  if String.eqb key "04A23B1C" then Some (Some v) else Some None.

Definition demo_file : mapping_file string := Loaded "history".

(** The object [watching] after a wait that succeeded with the event state
    [event_state] on the concrete service. *)
Definition seen (event_state : Z) : NFCReader :=
  {| hcontext := 7; reader_name := Some "ACR122U";
     reader_states :=
       {| szReader := Some "ACR122U"; pvUserData := 0;
          dwCurrentState := event_state; dwEventState := event_state;
          cbAtr := 0; rgbAtr := [] |} |}.

(** ** The connection manager of [server.py]

    [active_connections] is a list of websockets; a websocket is
    rendered by a number that stands for the identity of the object
    (websockets compare by identity). *)

(** [l.remove(x)]: the list without the first element equal to [x];
    [None] is the [ValueError] raised when there is none. *)
Fixpoint list_remove (x : Z) (l : list Z) : option (list Z) :=
  match l with
  | [] => None
  | y :: r =>
      if y =? x then Some r
      else match list_remove x r with
           | Some r' => Some (y :: r')
           | None => None
           end
  end.

(** [ConnectionManager.connect]: the websocket is appended once
    [websocket.accept()] has returned; if [accept] raises ([accepted] is
    false) the exception goes to the caller, here [None]. The second
    component is the number of connections the method logs. *)
Definition cm_connect (accepted : bool) (active : list Z) (websocket : Z)
  : option (list Z * Z) :=
  if accepted then
    let active' := (active ++ [websocket])%list in
    Some (active', len active')
  else None.

(** [ConnectionManager.disconnect], with the number it logs. *)
Definition cm_disconnect (active : list Z) (websocket : Z)
  : option (list Z * Z) :=
  match list_remove websocket active with
  | Some active' => Some (active', len active')
  | None => None
  end.

(** * Properties *)

(** ** Sequences and slices *)

Lemma len_app {A} (l1 l2 : list A) : len (l1 ++ l2) = len l1 + len l2.
Proof. unfold len. rewrite length_app. lia. Qed.

Lemma len_nonneg {A} (l : list A) : 0 <= len l.
Proof. unfold len. lia. Qed.

(** A sequence of at least two elements is some data followed by two
    trailing elements. *)
Lemma split_trailer {A} (l : list A) :
  2 <= len l -> exists data a b, l = (data ++ [a; b])%list.
Proof.
  unfold len. intros H.
  destruct (rev l) as [|b [|a r]] eqn:E.
  - apply (f_equal (@List.length A)) in E. rewrite length_rev in E.
    simpl in E. lia.
  - apply (f_equal (@List.length A)) in E. rewrite length_rev in E.
    simpl in E. lia.
  - exists (rev r), a, b.
    rewrite <- (rev_involutive l), E. simpl.
    rewrite <- app_assoc. reflexivity.
Qed.

Lemma slice_data {A} (data : list A) (a b : A) :
  slice (data ++ [a; b]) None (Some (-2)) = data.
Proof.
  unfold slice, clamp. rewrite len_app.
  change (len [a; b]) with 2. pose proof (len_nonneg data).
  replace (-2 <? 0) with true by reflexivity.
  replace (-2 + (len data + 2)) with (len data) by lia.
  rewrite Z.max_r by lia. rewrite Z.sub_0_r. simpl skipn.
  unfold len. rewrite Nat2Z.id.
  rewrite firstn_app, firstn_all, Nat.sub_diag. simpl. apply app_nil_r.
Qed.

Lemma slice_trailer {A} (data : list A) (a b : A) :
  slice (data ++ [a; b]) (Some (-2)) None = [a; b].
Proof.
  unfold slice, clamp. rewrite len_app.
  change (len [a; b]) with 2. pose proof (len_nonneg data).
  replace (-2 <? 0) with true by reflexivity.
  replace (-2 + (len data + 2)) with (len data) by lia.
  rewrite Z.max_r by lia.
  replace (len data + 2 - len data) with 2 by lia.
  unfold len. rewrite Nat2Z.id.
  rewrite skipn_app, skipn_all, Nat.sub_diag. reflexivity.
Qed.

Lemma getitem_sw1 {A} (data : list A) (a b : A) :
  getitem (data ++ [a; b]) (-2) = Some a.
Proof.
  unfold getitem. rewrite len_app.
  change (len [a; b]) with 2. pose proof (len_nonneg data).
  replace (-2 <? 0) with true by reflexivity.
  replace (-2 + (len data + 2)) with (len data) by lia.
  destruct (len data <? 0) eqn:E1; [lia|].
  destruct (len data + 2 <=? len data) eqn:E2; [lia|]. simpl.
  unfold len. rewrite Nat2Z.id.
  rewrite nth_error_app2 by lia. rewrite Nat.sub_diag. reflexivity.
Qed.

Lemma getitem_sw2 {A} (data : list A) (a b : A) :
  getitem (data ++ [a; b]) (-1) = Some b.
Proof.
  unfold getitem. rewrite len_app.
  change (len [a; b]) with 2. pose proof (len_nonneg data).
  replace (-1 <? 0) with true by reflexivity.
  replace (-1 + (len data + 2)) with (len data + 1) by lia.
  destruct (len data + 1 <? 0) eqn:E1; [lia|].
  destruct (len data + 2 <=? len data + 1) eqn:E2; [lia|]. simpl.
  unfold len. rewrite Z2Nat.inj_add, Nat2Z.id by lia.
  rewrite nth_error_app2 by lia.
  replace (List.length data + Z.to_nat 1 - List.length data)%nat with 1%nat by lia.
  reflexivity.
Qed.

(** A slice is never longer than the sequence it is cut from. *)
Lemma slice_length_le {A} (l : list A) (start stop : option Z) :
  len (slice l start stop) <= len l.
Proof.
  unfold slice, len.
  rewrite length_firstn, length_skipn. lia.
Qed.

(** If the last two elements are [a; b], the sequence has them as trailer. *)
Lemma trailer_inv {A} (l : list A) (a b : A) :
  slice l (Some (-2)) None = [a; b] ->
  exists data, l = (data ++ [a; b])%list.
Proof.
  intros H.
  assert (L : 2 <= len l).
  { pose proof (slice_length_le l (Some (-2)) None) as S.
    rewrite H in S. exact S. }
  destruct (split_trailer l L) as (data & a' & b' & ->).
  rewrite slice_trailer in H. inversion H; subst. now exists data.
Qed.

(** ** Hexadecimal text *)

Lemma upper_app (s1 s2 : string) : upper (s1 ++ s2) = upper s1 ++ upper s2.
Proof. induction s1 as [|c s1 IH]; simpl; [reflexivity | now rewrite IH]. Qed.

Lemma upper_byte_hex (b : byte) :
  upper (byte_hex b) =
  String (upper_hexdigit (Byte.to_N b / 16))
    (String (upper_hexdigit (Byte.to_N b mod 16)) EmptyString).
Proof. destruct b; reflexivity. Qed.

(** The module's [_hex] computes the specification's [uppercaseHex]. *)
Lemma _hex_uppercaseHex (data : list byte) : _hex data = uppercaseHex data.
Proof.
  unfold _hex. induction data as [|b r IH]; [reflexivity|].
  cbn [bytes_hex uppercaseHex]. rewrite upper_app, upper_byte_hex, IH.
  reflexivity.
Qed.

Lemma uppercaseHex_length (data : list byte) :
  Z.of_nat (String.length (uppercaseHex data)) = 2 * len data.
Proof.
  unfold len. induction data as [|b r IH]; [reflexivity|].
  cbn [uppercaseHex String.length List.length]. lia.
Qed.

Lemma _hex_length (data : list byte) :
  Z.of_nat (String.length (_hex data)) = 2 * len data.
Proof. rewrite _hex_uppercaseHex. apply uppercaseHex_length. Qed.

(** ** The status word *)

Lemma int_of_byte_inj (a b : byte) : int_of_byte a = int_of_byte b -> a = b.
Proof.
  unfold int_of_byte. intros H. apply N2Z.inj in H.
  pose proof (Byte.of_to_N a) as Ha. rewrite H, Byte.of_to_N in Ha.
  congruence.
Qed.

(** The test [(sw1, sw2) != (0x90, 0x00)] of the one-shot path, on the
    integers, against the comparison of the two bytes. *)
Lemma status_word_test (a b : byte) :
  (int_of_byte a =? 0x90) && (int_of_byte b =? 0x00) = bytes_eqb [a; b] [x90; x00].
Proof.
  unfold bytes_eqb.
  destruct (list_eq_dec byte_eq_dec [a; b] [x90; x00]) as [E|N].
  - inversion E; subst. reflexivity.
  - apply andb_false_iff.
    destruct (int_of_byte a =? 144) eqn:Ea; [|now left].
    destruct (int_of_byte b =? 0) eqn:Eb; [|now right].
    exfalso. apply N.
    apply Z.eqb_eq in Ea, Eb.
    rewrite (int_of_byte_inj a x90 Ea), (int_of_byte_inj b x00 Eb).
    reflexivity.
Qed.

Lemma bytes_eqb_eq (x y : list byte) : bytes_eqb x y = true <-> x = y.
Proof.
  unfold bytes_eqb. destruct (list_eq_dec byte_eq_dec x y); split;
    intros; congruence.
Qed.

(** The decode step on a response with a two-byte trailer. *)
Lemma decode_response_trailer (data : list byte) (a b : byte) :
  decode_response (data ++ [a; b]) =
  if bytes_eqb [a; b] [x90; x00] then Returns (_hex data)
  else Raises (RuntimeError
                 ("GET_UID failed: SW=" ++ format_0X 2 (int_of_byte a)
                  ++ format_0X 2 (int_of_byte b))).
Proof.
  unfold decode_response.
  rewrite len_app. change (len [a; b]) with 2.
  pose proof (len_nonneg data).
  destruct (len data + 2 <? 2) eqn:E; [lia|].
  rewrite getitem_sw1, getitem_sw2, slice_data, status_word_test.
  destruct (bytes_eqb [a; b] [x90; x00]); reflexivity.
Qed.

Lemma decode_response_short (resp : list byte) :
  len resp < 2 -> decode_response resp = Raises (RuntimeError "Short response").
Proof.
  intros H. unfold decode_response.
  destruct (len resp <? 2) eqn:E; [reflexivity | lia].
Qed.

Lemma read_uid_decode_trailer (data : list byte) (a b : byte) :
  read_uid_decode (data ++ [a; b]) =
  if bytes_eqb [a; b] [x90; x00] then Some (_hex data) else None.
Proof.
  unfold read_uid_decode.
  rewrite len_app. change (len [a; b]) with 2.
  pose proof (len_nonneg data).
  destruct (2 <=? len data + 2) eqn:E; [|lia].
  rewrite slice_trailer, slice_data. reflexivity.
Qed.

(** The two hexadecimal digits of a byte determine the byte. *)
Lemma format_byte_digits (b : byte) :
  exists c1 c2,
    format_0X 2 (int_of_byte b) = String c1 (String c2 EmptyString)
    /\ (16 * nibble_of_digit c1 + nibble_of_digit c2)%N = Byte.to_N b.
Proof. destruct b; do 2 eexists; split; reflexivity. Qed.

(** The message of a rejected status word carries the two bytes: distinct
    status words give distinct messages. *)
Lemma status_word_recoverable (a b a' b' : byte) :
  "GET_UID failed: SW=" ++ format_0X 2 (int_of_byte a) ++ format_0X 2 (int_of_byte b)
  = "GET_UID failed: SW=" ++ format_0X 2 (int_of_byte a') ++ format_0X 2 (int_of_byte b')
  -> a = a' /\ b = b'.
Proof.
  destruct (format_byte_digits a) as (c1 & c2 & -> & Ha).
  destruct (format_byte_digits b) as (d1 & d2 & -> & Hb).
  destruct (format_byte_digits a') as (c1' & c2' & -> & Ha').
  destruct (format_byte_digits b') as (d1' & d2' & -> & Hb').
  cbn [String.append]. intros H. inversion H; subst.
  split; apply int_of_byte_inj; unfold int_of_byte; congruence.
Qed.

(** ** The decode step *)

(** C5. A response whose trailing two bytes are [90 00] decodes to the
    uppercase hexadecimal text of the bytes before them, whose length is
    twice the number of those bytes, that is [2 * (len resp - 2)]; the
    response [90 00] alone decodes to the empty string. *)
Theorem decode_accepts_9000 (resp : list byte) :
  slice resp (Some (-2)) None = [x90; x00] ->
  decode_response resp = Returns (_hex (slice resp None (Some (-2))))
  /\ _hex (slice resp None (Some (-2)))
     = uppercaseHex (slice resp None (Some (-2)))
  /\ Z.of_nat (String.length (_hex (slice resp None (Some (-2)))))
     = 2 * (len resp - 2)
  /\ decode_response [x90; x00] = Returns EmptyString.
Proof.
  intros H. destruct (trailer_inv resp x90 x00 H) as [data ->].
  rewrite slice_data, decode_response_trailer, _hex_length, len_app.
  change (len [x90; x00]) with 2.
  repeat split.
  - apply _hex_uppercaseHex.
  - lia.
Qed.

Lemma decode_accepts_9000_witness :
  slice uid_resp (Some (-2)) None = [x90; x00]
  /\ decode_response uid_resp = Returns "04A23B1C".
Proof.
  split; [reflexivity|].
  exact (proj1 (decode_accepts_9000 uid_resp eq_refl)).
Defined.

(** C6. The decode step succeeds exactly on the responses of length at
    least 2 whose trailing two bytes are [90 00]; a response of length 0
    or 1 raises "Short response", and a response of length at least 2 with
    another trailer raises the error that carries its two trailing
    bytes. *)
Theorem decode_succeeds_iff (resp : list byte) :
  ((exists uid, decode_response resp = Returns uid)
   <-> 2 <= len resp /\ slice resp (Some (-2)) None = [x90; x00])
  /\ (len resp < 2 ->
      decode_response resp = Raises (RuntimeError "Short response"))
  /\ (2 <= len resp ->
      slice resp (Some (-2)) None <> [x90; x00] ->
      exists sw1 sw2,
        slice resp (Some (-2)) None = [sw1; sw2]
        /\ decode_response resp =
           Raises (RuntimeError
                     ("GET_UID failed: SW=" ++ format_0X 2 (int_of_byte sw1)
                      ++ format_0X 2 (int_of_byte sw2)))).
Proof.
  destruct (Z.lt_ge_cases (len resp) 2) as [S|L].
  - pose proof (decode_response_short resp S) as D.
    split; [split|split].
    + intros [uid U]. congruence.
    + intros [L _]. lia.
    + intros _. exact D.
    + intros L. lia.
  - destruct (split_trailer resp L) as (data & a & b & ->).
    rewrite decode_response_trailer, slice_trailer.
    destruct (bytes_eqb [a; b] [x90; x00]) eqn:E.
    + apply bytes_eqb_eq in E.
      split; [split|split].
      * intros _. split; assumption.
      * intros _. eexists; reflexivity.
      * intros S. lia.
      * intros _ N. contradiction.
    + assert (N : [a; b] <> [x90; x00]).
      { intros C. apply bytes_eqb_eq in C. congruence. }
      split; [split|split].
      * intros [uid U]. discriminate.
      * intros [_ C]. contradiction.
      * intros S. lia.
      * intros _ _. exists a, b. split; reflexivity.
Qed.

Lemma decode_succeeds_iff_witness :
  decode_response [x6a] = Raises (RuntimeError "Short response")
  /\ exists sw1 sw2,
       slice [x01; x6a; x81] (Some (-2)) None = [sw1; sw2]
       /\ decode_response [x01; x6a; x81] =
          Raises (RuntimeError
                    ("GET_UID failed: SW=" ++ format_0X 2 (int_of_byte sw1)
                     ++ format_0X 2 (int_of_byte sw2))).
Proof.
  split.
  - apply (proj1 (proj2 (decode_succeeds_iff [x6a]))). reflexivity.
  - apply (proj2 (proj2 (decode_succeeds_iff [x01; x6a; x81]))).
    + discriminate.
    + discriminate.
Defined.

(** C10. On every response of length at least 2 the decode step of the
    one-shot path and the acceptance test of [NFCReader.read_uid] accept
    the same responses and, when they accept, give the same text. *)
Theorem decoders_agree (resp : list byte) :
  2 <= len resp ->
  ((exists uid, decode_response resp = Returns uid)
   <-> (exists uid, read_uid_decode resp = Some uid))
  /\ (forall uid,
        decode_response resp = Returns uid <-> read_uid_decode resp = Some uid).
Proof.
  intros L. destruct (split_trailer resp L) as (data & a & b & ->).
  rewrite decode_response_trailer, read_uid_decode_trailer.
  destruct (bytes_eqb [a; b] [x90; x00]); split.
  - split; intros _; eexists; reflexivity.
  - intros uid. split; intros H; inversion H; reflexivity.
  - split; intros [uid H]; discriminate.
  - intros uid. split; intros H; discriminate.
Qed.

Lemma decoders_agree_witness :
  2 <= len uid_resp
  /\ (decode_response uid_resp = Returns "04A23B1C"
      <-> read_uid_decode uid_resp = Some "04A23B1C").
Proof.
  assert (L : 2 <= len uid_resp) by (vm_compute; discriminate).
  split; [exact L|].
  exact (proj2 (decoders_agree uid_resp L) "04A23B1C").
Defined.

(** Below length 2 both reject as well (the one-shot path by raising,
    [read_uid] by falling through). *)
Lemma decoders_reject_short (resp : list byte) :
  len resp < 2 ->
  decode_response resp = Raises (RuntimeError "Short response")
  /\ read_uid_decode resp = None.
Proof.
  intros S. split; [now apply decode_response_short|].
  unfold read_uid_decode. destruct (2 <=? len resp) eqn:E; [lia|reflexivity].
Qed.

(** ** Running the monad *)

Arguments decode_response : simpl never.
Arguments read_uid_decode : simpl never.
Arguments reader_names : simpl never.
Arguments format_0X : simpl never.
Arguments str_of_int : simpl never.
Arguments slice : simpl never.
Arguments DWORD : simpl never.
Arguments Z.land : simpl never.
Arguments Z.lor : simpl never.

(** Unfold the monad and walk through the function: name the result of
    each foreign call, and split on each test of a status code. *)
Ltac unfold_monad :=
  unfold run, bind, call, try_finally, raise, ret, lift, SCARD_S_SUCCESS;
  simpl.

Ltac name_call :=
  match goal with
  | |- context [SCardEstablishContext ?l ?a] =>
      destruct (SCardEstablishContext l a) as [? ?] eqn:?
  | |- context [SCardListReaders_size ?l ?a] =>
      destruct (SCardListReaders_size l a) as [? ?] eqn:?
  | |- context [SCardListReaders ?l ?a ?b] =>
      destruct (SCardListReaders l a b) as [? ?] eqn:?
  | |- context [SCardConnect ?l ?a ?b ?c ?d] =>
      destruct (SCardConnect l a b c d) as [[? ?] ?] eqn:?
  | |- context [SCardTransmit ?l ?a ?b ?c] =>
      destruct (SCardTransmit l a b c) as [[? ?] ?] eqn:?
  end.

Ltac split_test :=
  match goal with
  | |- context [negb (?x =? 0)] => destruct (Z.eqb_spec x 0); subst
  | |- context [if ?x =? 0 then _ else _] => destruct (Z.eqb_spec x 0); subst
  | |- context [if ?c then _ else _] => destruct c eqn:?
  | |- context [match reader_names ?b with _ => _ end] =>
      destruct (reader_names b) eqn:?
  end.

Ltac walk := repeat (first [ name_call | split_test ]; simpl).

Lemma ends_with_refl (suffix : list event) : ends_with suffix suffix.
Proof. now exists []. Qed.

Lemma ends_with_cons (e : event) (tr suffix : list event) :
  ends_with tr suffix -> ends_with (e :: tr) suffix.
Proof. intros [before ->]. now exists (e :: before). Qed.

Ltac pick_event H :=
  simpl in H;
  repeat (destruct H as [H | H];
          [ try discriminate H; inversion H; subst; clear H | ]);
  try contradiction;
  try match goal with
    | N : 0 <> 0 |- _ => exfalso; apply N; reflexivity
    end.

Ltac find_suffix :=
  repeat first [ apply ends_with_refl | apply ends_with_cons ].

Ltac run_phase :=
  repeat first
    [ rewrite Z.eqb_refl
    | match goal with
      | N : ?z <> 0 |- context [?z =? 0] =>
          destruct (Z.eqb_spec z 0); [contradiction|]
      end
    | progress simpl ];
  try reflexivity.

(** Close a goal [handles_released tr] on a trace spelled out event by
    event. *)
Ltac close_released :=
  unfold handles_released, phase_after; simpl;
  split; [ run_phase | split ];
  [ .. | intros ? ? In_tr; pick_event In_tr; find_suffix
       | intros ? ? ? ? ? In_tr; pick_event In_tr; find_suffix ].

(** ** Release of handles in the one-shot read *)

Lemma windows_releases_handles (lib : Pcsc) :
  handles_released (snd (run (_read_uid_windows lib))).
Proof.
  unfold _read_uid_windows. unfold_monad. walk.
  all: close_released.
Qed.

Lemma macos_releases_handles (utf8_valid : string -> bool) (lib : Pcsc) :
  handles_released (snd (run (_read_uid_macos utf8_valid lib))).
Proof.
  unfold _read_uid_macos. unfold_monad. walk.
  all: close_released.
Qed.

(** A successful establish is in the trace, on both platforms. *)
Lemma establish_is_logged (utf8_valid : string -> bool) (lib : Pcsc) (rv h : Z) :
  SCardEstablishContext lib SCARD_SCOPE_USER = (rv, h) ->
  In (EvEstablishContext SCARD_SCOPE_USER rv h)
     (snd (run (_read_uid_windows lib)))
  /\ In (EvEstablishContext SCARD_SCOPE_USER rv h)
        (snd (run (_read_uid_macos utf8_valid lib))).
Proof.
  intros E. split.
  - unfold _read_uid_windows. unfold_monad. rewrite E. walk.
    all: simpl; auto.
  - unfold _read_uid_macos. unfold_monad. rewrite E. walk.
    all: simpl; auto.
Qed.

(** C7. In every execution of the one-shot read, on either platform, the
    handles are used in the order establish, connect, disconnect, release
    and none is left open: a context that was established is released by
    the last call, and a connection that was opened is disconnected by the
    call just before it. *)
Theorem one_shot_releases_handles
  (utf8_valid : string -> bool) (platform : string) (lib : Pcsc) :
  handles_released (snd (run (_read_uid_windows lib)))
  /\ handles_released (snd (run (_read_uid_macos utf8_valid lib)))
  /\ handles_released (snd (run (read_uid_hex utf8_valid platform lib)))
  /\ (forall h,
        SCardEstablishContext lib SCARD_SCOPE_USER = (0, h) ->
        ends_with (snd (run (_read_uid_windows lib))) [EvReleaseContext h]
        /\ ends_with (snd (run (_read_uid_macos utf8_valid lib)))
             [EvReleaseContext h]).
Proof.
  pose proof (windows_releases_handles lib) as W.
  pose proof (macos_releases_handles utf8_valid lib) as D.
  split; [exact W|]. split; [exact D|]. split.
  - unfold read_uid_hex.
    destruct (startswith platform "win"); [exact W|].
    destruct (String.eqb platform "darwin"); [exact D|].
    unfold run, raise. simpl. unfold handles_released. simpl.
    split; [reflexivity|]. split; intros; contradiction.
  - intros h E.
    destruct (establish_is_logged utf8_valid lib 0 h E) as [Iw Id].
    split.
    + apply (proj1 (proj2 W) _ _ Iw).
    + apply (proj1 (proj2 D) _ _ Id).
Qed.

Lemma one_shot_releases_handles_witness :
  ends_with (snd (run (_read_uid_windows (service 0 0 [x6a; x81] 0 0))))
    [EvReleaseContext 7]
  /\ ends_with
       (snd (run (_read_uid_macos (fun _ => true) (service 0 0 [x6a; x81] 0 0))))
       [EvReleaseContext 7].
Proof.
  apply (proj2 (proj2 (proj2
    (one_shot_releases_handles (fun _ => true) "win32"
       (service 0 0 [x6a; x81] 0 0))))).
  reflexivity.
Defined.

(** ** [NFCReader.read_uid] *)

Lemma truthy_opt_some (o : option string) :
  truthy_opt o = true -> exists name, o = Some name.
Proof. destruct o; [eauto | discriminate]. Qed.

Lemma read_uid_decode_rejects (resp : list byte) :
  len resp < 2 \/ slice resp (Some (-2)) None <> [x90; x00] ->
  read_uid_decode resp = None.
Proof.
  unfold read_uid_decode. intros [S|N].
  - destruct (2 <=? len resp) eqn:E; [lia | reflexivity].
  - destruct (bytes_eqb (slice resp (Some (-2)) None) [x90; x00]) eqn:E.
    + apply bytes_eqb_eq in E. contradiction.
    + rewrite andb_false_r. reflexivity.
Qed.

(** C4. [read_uid] always returns and never raises; under each of its
    failures (no reader known, connect failure, transmit failure, response
    shorter than 2 bytes, status word other than 90 00) it returns
    [None]. *)
Theorem read_uid_never_raises (winscard : Pcsc) (self : NFCReader) :
  (exists r, fst (run (read_uid winscard self)) = Returns r)
  /\ (read_uid_failure winscard self ->
      fst (run (read_uid winscard self)) = Returns None).
Proof.
  split.
  - unfold read_uid. unfold_monad.
    destruct (truthy_opt (reader_name self)) eqn:T; simpl; [|eauto].
    destruct (reader_name self) as [name|]; simpl; [|eauto].
    walk. all: eauto.
  - intros F. unfold read_uid. unfold_monad.
    destruct F as [T | name rv hcard proto R C N
                  | name hcard proto rv raw n R C X N
                  | name hcard proto raw n R C X S
                  | name hcard proto raw n R C X W].
    + rewrite T. reflexivity.
    + rewrite R. destruct (truthy_opt (Some name)); simpl; [|reflexivity].
      rewrite C. simpl. destruct (Z.eqb_spec rv 0); [contradiction|].
      reflexivity.
    + rewrite R. destruct (truthy_opt (Some name)); simpl; [|reflexivity].
      rewrite C. simpl. rewrite X. simpl.
      destruct (Z.eqb_spec rv 0); [contradiction|]. reflexivity.
    + rewrite R. destruct (truthy_opt (Some name)); simpl; [|reflexivity].
      rewrite C. simpl. rewrite X. simpl.
      rewrite read_uid_decode_rejects by (now left). reflexivity.
    + rewrite R. destruct (truthy_opt (Some name)); simpl; [|reflexivity].
      rewrite C. simpl. rewrite X. simpl.
      rewrite read_uid_decode_rejects by (now right). reflexivity.
Qed.

Lemma read_uid_never_raises_witness :
  fst (run (read_uid (service 0x80100069 0 uid_resp 0 0) watching))
  = Returns None.
Proof.
  apply (proj2 (read_uid_never_raises
                  (service 0x80100069 0 uid_resp 0 0) watching)).
  apply (connect_failed _ _ "ACR122U" 0x80100069 9 2);
    [reflexivity | reflexivity | discriminate].
Defined.

(** When no failure is met, [read_uid] returns the text of the data
    bytes. *)
Lemma read_uid_success (winscard : Pcsc) (self : NFCReader)
  (name : string) (hcard proto : Z) (raw : list byte) (n : Z) (data : list byte) :
  reader_name self = Some name ->
  truthy_str name = true ->
  SCardConnect winscard (hcontext self) name 2 3 = (0, hcard, proto) ->
  SCardTransmit winscard hcard (DWORD proto) GET_UID = (0, raw, n) ->
  slice raw None (Some (DWORD n)) = (data ++ [x90; x00])%list ->
  run (read_uid winscard self)
  = (Returns (Some (_hex data)),
     [EvConnect (hcontext self) name 2 3 0 hcard;
      EvTransmit hcard GET_UID 0;
      EvDisconnect hcard 0]).
Proof.
  intros R T C X S. unfold read_uid. unfold_monad.
  rewrite R. simpl. rewrite T. simpl. rewrite C. simpl. rewrite X. simpl.
  rewrite S, read_uid_decode_trailer. reflexivity.
Qed.

(** A connection opened by [read_uid] is disconnected before it returns:
    started with the context open, the trace ends with the context open and
    no card connection. *)
Lemma read_uid_disconnects (winscard : Pcsc) (self : NFCReader) :
  phase_after (InContext (hcontext self)) (snd (run (read_uid winscard self)))
  = InContext (hcontext self).
Proof.
  unfold read_uid. unfold_monad.
  destruct (truthy_opt (reader_name self)) eqn:T; simpl; [|reflexivity].
  destruct (reader_name self) as [name|]; simpl; [|reflexivity].
  unfold phase_after.
  repeat (rewrite ?Z.eqb_refl; first [ name_call | split_test ]; simpl).
  all: run_phase; congruence.
Qed.

(** ** [NFCReader.wait_for_card] *)

Lemma DWORD_idem (z : Z) : DWORD (DWORD z) = DWORD z.
Proof. unfold DWORD. apply Z.mod_mod. lia. Qed.

(** [e & 2^k] is non-zero exactly when bit [k] of [e] is set. *)
Lemma land_pow2 (e k : Z) :
  0 <= k -> Z.land e (2 ^ k) = if Z.testbit e k then 2 ^ k else 0.
Proof.
  intros K. apply Z.bits_inj'. intros n N.
  rewrite Z.land_spec, Z.pow2_bits_eqb by exact K.
  destruct (Z.eqb_spec k n) as [->|D].
  - destruct (Z.testbit e n).
    + now rewrite Z.pow2_bits_true.
    + now rewrite Z.bits_0.
  - rewrite andb_false_r.
    destruct (Z.testbit e k).
    + now rewrite Z.pow2_bits_false.
    + now rewrite Z.bits_0.
Qed.

Lemma bit_test (e k : Z) :
  0 <= k -> (Z.land e (2 ^ k) =? 0) = negb (Z.testbit e k).
Proof.
  intros K. rewrite land_pow2 by exact K.
  destruct (Z.testbit e k); [|reflexivity].
  apply Z.eqb_neq. pose proof (Z.pow_pos_nonneg 2 k). lia.
Qed.

(** The three tests of [wait_for_card] on the event state, as a token. *)
Lemma token_tests (e : Z) :
  (if negb (Z.land e SCARD_STATE_PRESENT =? 0) then Some "present"
   else if negb (Z.land e SCARD_STATE_EMPTY =? 0) then Some "empty"
   else if negb (Z.land e SCARD_STATE_UNAVAILABLE =? 0) then Some "unavailable"
   else None) = token_of e.
Proof.
  change SCARD_STATE_PRESENT with (2 ^ 5).
  change SCARD_STATE_EMPTY with (2 ^ 4).
  change SCARD_STATE_UNAVAILABLE with (2 ^ 3).
  rewrite !bit_test by lia. unfold token_of.
  destruct (Z.testbit e 5), (Z.testbit e 4), (Z.testbit e 3); reflexivity.
Qed.

Lemma find_reader_known (winscard : Pcsc) (self : NFCReader) (t : list event) :
  truthy_opt (reader_name self) = true ->
  find_reader winscard self t = (Returns (Some self), t).
Proof. intros T. unfold find_reader. rewrite T. reflexivity. Qed.

(** What [wait_for_card] does once a reader is at hand, by the status of
    the wait. *)
Lemma wait_for_card_polls (winscard : Pcsc) (self found : NFCReader)
  (timeout_ms : Z) (enum : list event) :
  find_reader winscard self [] = (Returns (Some found), enum) ->
  run (wait_for_card winscard self timeout_ms) =
  let sc := poll winscard found timeout_ms in
  let e := DWORD (sc_dwEventState sc) in
  let polled := set_reader_states found (written_back (reader_states found) sc) in
  let persisted :=
    set_reader_states polled (set_dwCurrentState (reader_states polled) e) in
  (Returns
     (if sc_rv sc =? 0 then
        (token_of e,
         if negb (Z.testbit e 5) && negb (Z.testbit e 4) && Z.testbit e 3
         then set_reader_name persisted None else persisted)
      else if sc_rv sc =? 0x8010000A then (None, polled)
      else (None, set_reader_name polled None)),
   (enum ++ [EvGetStatusChange (hcontext found) (DWORD timeout_ms)
               (szReader (reader_states found))
               (dwCurrentState (reader_states found)) (sc_rv sc)])%list).
Proof.
  intros F. unfold wait_for_card, run, bind. rewrite F.
  unfold call, ret, poll. cbv zeta. cbn [reader_states set_reader_states dwEventState written_back].
  destruct (sc_rv _ =? 0) eqn:E0.
  - rewrite <- token_tests.
    change SCARD_STATE_PRESENT with (2 ^ 5).
    change SCARD_STATE_EMPTY with (2 ^ 4).
    change SCARD_STATE_UNAVAILABLE with (2 ^ 3).
    rewrite !bit_test by lia.
    destruct (Z.testbit _ 5), (Z.testbit _ 4), (Z.testbit _ 3); reflexivity.
  - destruct (sc_rv _ =? 0x8010000A); reflexivity.
Qed.


(** C3. When the status-change wait succeeds (status 0), the token is
    decided by bit priority on the event state (PRESENT, else EMPTY, else
    UNAVAILABLE, else absent), the event state is persisted as the new
    current state in every branch, and the reader is forgotten exactly in
    the "unavailable" branch. *)
Theorem wait_for_card_success (winscard : Pcsc) (self found : NFCReader)
  (timeout_ms : Z) (enum : list event) :
  find_reader winscard self [] = (Returns (Some found), enum) ->
  sc_rv (poll winscard found timeout_ms) = 0 ->
  exists self',
    fst (run (wait_for_card winscard self timeout_ms))
    = Returns (token_of (DWORD (sc_dwEventState (poll winscard found timeout_ms))),
               self')
    /\ dwCurrentState (reader_states self')
       = DWORD (sc_dwEventState (poll winscard found timeout_ms))
    /\ dwEventState (reader_states self')
       = DWORD (sc_dwEventState (poll winscard found timeout_ms))
    /\ (token_of (DWORD (sc_dwEventState (poll winscard found timeout_ms)))
        = Some "unavailable" -> reader_name self' = None)
    /\ (token_of (DWORD (sc_dwEventState (poll winscard found timeout_ms)))
        <> Some "unavailable" -> reader_name self' = reader_name found).
Proof.
  intros F S. rewrite (wait_for_card_polls _ _ _ _ _ F). cbv zeta.
  rewrite S. cbn [fst Z.eqb]. unfold token_of.
  set (e := DWORD (sc_dwEventState (poll winscard found timeout_ms))).
  destruct (Z.testbit e 5), (Z.testbit e 4), (Z.testbit e 3);
    cbn [negb andb]; eexists; (split; [reflexivity|]);
    cbn; repeat split; intros; try congruence.
  all: apply DWORD_idem.
Qed.

Lemma wait_for_card_success_witness :
  exists self',
    fst (run (wait_for_card (service 0 0 uid_resp 0 0x22) watching 500))
    = Returns (Some "present", self')
    /\ dwCurrentState (reader_states self') = 0x22.
Proof.
  destruct (wait_for_card_success (service 0 0 uid_resp 0 0x22) watching
              watching 500 [] eq_refl eq_refl) as (self' & R & C & _).
  exists self'. split; [exact R | exact C].
Defined.

(** With the status [0x8010000A] as an unsigned value, [wait_for_card]
    returns [None] and keeps the reader name and the current state. *)
Lemma wait_for_card_timeout (winscard : Pcsc) (self : NFCReader) (timeout_ms : Z) :
  truthy_opt (reader_name self) = true ->
  sc_rv (poll winscard self timeout_ms) = SCARD_E_TIMEOUT ->
  exists self',
    fst (run (wait_for_card winscard self timeout_ms)) = Returns (None, self')
    /\ reader_name self' = reader_name self
    /\ szReader (reader_states self') = szReader (reader_states self)
    /\ dwCurrentState (reader_states self')
       = dwCurrentState (reader_states self).
Proof.
  intros T S.
  rewrite (wait_for_card_polls _ _ _ _ _ (find_reader_known _ _ [] T)).
  cbv zeta. rewrite S. cbn [fst]. eexists. split; [reflexivity|].
  split; [reflexivity|]. split; reflexivity.
Qed.

(** With the same status read as a signed 32-bit integer, the reader name
    is forgotten. *)
Lemma wait_for_card_signed_timeout (winscard : Pcsc) (self : NFCReader)
  (timeout_ms : Z) :
  truthy_opt (reader_name self) = true ->
  sc_rv (poll winscard self timeout_ms) = as_signed32 SCARD_E_TIMEOUT ->
  exists self',
    fst (run (wait_for_card winscard self timeout_ms)) = Returns (None, self')
    /\ reader_name self' = None.
Proof.
  intros T S.
  rewrite (wait_for_card_polls _ _ _ _ _ (find_reader_known _ _ [] T)).
  cbv zeta. rewrite S. cbn [fst]. eexists. split; reflexivity.
Qed.

(** C1, at the signed reading of the timeout status. The status
    [0x8010000A] read as a signed 32-bit integer is [-2146435062]; masked
    to 32 bits it is the timeout status again. On an object that knows its
    reader, a wait that returns this status makes [wait_for_card] return
    [None] and forget the reader name. *)
Theorem wait_for_card_signed_timeout_forgets_reader :
  as_signed32 SCARD_E_TIMEOUT = -2146435062
  /\ Z.land (-2146435062) 0xFFFFFFFF = SCARD_E_TIMEOUT
  /\ reader_name watching = Some "ACR122U"
  /\ exists self',
       run (wait_for_card (service 0 0 uid_resp (-2146435062) 0x12)
              watching 500)
       = (Returns (None, self'),
          [EvGetStatusChange 7 500 (Some "ACR122U") 0x12 (-2146435062)])
       /\ reader_name self' = None
       /\ dwCurrentState (reader_states self') = 0x12.
Proof.
  split; [reflexivity|]. split; [reflexivity|]. split; [reflexivity|].
  eexists. split; [vm_compute; reflexivity|]. split; reflexivity.
Qed.


(** ** Rediscovery of the reader *)

Lemma get_readers_enumerates (winscard : Pcsc) (self : NFCReader) :
  exists names tr,
    _get_readers winscard self [] = (Returns names, tr)
    /\ is_enumeration (hcontext self) tr.
Proof.
  unfold _get_readers, is_enumeration. unfold_monad. walk.
  all: do 2 eexists; (split; [reflexivity|]);
       do 2 eexists; (split; [reflexivity|]); repeat constructor; eauto.
Qed.

Lemma enumeration_has_no_poll (h : Z) (tr : list event)
  (h' t : Z) (sz : option string) (cur rv : Z) :
  is_enumeration h tr -> ~ In (EvGetStatusChange h' t sz cur rv) tr.
Proof.
  intros (rv0 & rest & -> & F) [I|I]; [discriminate|].
  rewrite Forall_forall in F. destruct (F _ I) as (b & rv' & E).
  discriminate.
Qed.

(** With no reader known, [find_reader] enumerates the readers; with none
    found it gives up, otherwise the first name is stored and the watch
    state starts unaware. *)
Lemma find_reader_unknown (winscard : Pcsc) (self : NFCReader)
  (names : list string) (tr : list event) :
  truthy_opt (reader_name self) = false ->
  _get_readers winscard self [] = (Returns names, tr) ->
  find_reader winscard self [] =
  (Returns
     match names with
     | [] => None
     | r :: _ =>
         Some (set_reader_states (set_reader_name self (Some r))
                 (set_dwCurrentState
                    (set_szReader (reader_states self) (Some r))
                    SCARD_STATE_UNAWARE))
     end, tr).
Proof.
  intros T G. unfold find_reader, bind. rewrite T. cbn [negb]. rewrite G.
  destruct names; reflexivity.
Qed.

(** Either way the calls of [find_reader] are reader enumerations only. *)
Lemma find_reader_cases (winscard : Pcsc) (self : NFCReader) :
  exists found tr,
    find_reader winscard self [] = (Returns found, tr)
    /\ (tr = [] \/ is_enumeration (hcontext self) tr).
Proof.
  destruct (truthy_opt (reader_name self)) eqn:T.
  - exists (Some self), []. split; [now apply find_reader_known | now left].
  - destruct (get_readers_enumerates winscard self) as (names & tr & G & E).
    eexists. exists tr.
    split; [apply (find_reader_unknown _ _ _ _ T G) | now right].
Qed.

Lemma Returns_inj {A} (a b : A) : Returns a = Returns b -> a = b.
Proof. intros H. now injection H. Qed.

Lemma unavailable_bits (e : Z) :
  token_of e = Some "unavailable" ->
  negb (Z.testbit e 5) && negb (Z.testbit e 4) && Z.testbit e 3 = true.
Proof.
  unfold token_of.
  destruct (Z.testbit e 5); [discriminate|].
  destruct (Z.testbit e 4); [discriminate|].
  destruct (Z.testbit e 3); [reflexivity | discriminate].
Qed.

(** C9. After a [wait_for_card] call that returned "unavailable", or
    whose status-change wait returned a status other than 0 and
    [0x8010000A], the reader name is forgotten; the next call enumerates
    the readers again and, when one is found, waits on the first name of
    this enumeration with the current state unaware; when none is found it
    returns [None] without waiting. *)
Theorem wait_for_card_rediscovers (first : Pcsc) (self self1 : NFCReader)
  (timeout1 : Z) (token : option string) (tr1 : list event) :
  run (wait_for_card first self timeout1) = (Returns (token, self1), tr1) ->
  (token = Some "unavailable"
   \/ exists h t sz cur rv,
        In (EvGetStatusChange h t sz cur rv) tr1
        /\ rv <> 0 /\ rv <> SCARD_E_TIMEOUT) ->
  reader_name self1 = None
  /\ forall (next : Pcsc) (timeout2 : Z),
       exists names enum,
         _get_readers next self1 [] = (Returns names, enum)
         /\ is_enumeration (hcontext self1) enum
         /\ match names with
            | [] =>
                run (wait_for_card next self1 timeout2)
                = (Returns (None, self1), enum)
            | r :: _ =>
                exists rv,
                  snd (run (wait_for_card next self1 timeout2))
                  = (enum ++ [EvGetStatusChange (hcontext self1)
                                (DWORD timeout2) (Some r)
                                SCARD_STATE_UNAWARE rv])%list
            end.
Proof.
  intros R Why.
  assert (Forgot : reader_name self1 = None).
  { destruct (find_reader_cases first self) as (found & enum & F & Enum).
    destruct found as [found|].
    - rewrite (wait_for_card_polls _ _ _ _ _ F) in R. cbv zeta in R.
      set (sc := poll first found timeout1) in *.
      set (e := DWORD (sc_dwEventState sc)) in *.
      apply pair_equal_spec in R. destruct R as [Out Tr].
      apply Returns_inj in Out.
      assert (Polled : forall h t sz cur rv,
                 In (EvGetStatusChange h t sz cur rv) tr1 -> rv = sc_rv sc).
      { intros h t sz cur rv I. rewrite <- Tr in I.
        apply in_app_or in I. destruct I as [I|I].
        - destruct Enum as [-> | Enum]; [contradiction|].
          exfalso. exact (enumeration_has_no_poll _ _ _ _ _ _ _ Enum I).
        - destruct I as [I|[]]. injection I as _ _ _ _ Rv. now symmetry. }
      destruct (sc_rv sc =? 0) eqn:Z0.
      + apply Z.eqb_eq in Z0.
        apply pair_equal_spec in Out. destruct Out as [Tok State].
        destruct Why as [U | (h & t & sz & cur & rv & I & N0 & _)].
        * rewrite U in Tok.
          rewrite (unavailable_bits e Tok) in State.
          rewrite <- State. reflexivity.
        * rewrite (Polled _ _ _ _ _ I) in N0. contradiction.
      + destruct (sc_rv sc =? 0x8010000A) eqn:TO;
          apply pair_equal_spec in Out; destruct Out as [Tok State].
        * apply Z.eqb_eq in TO.
          destruct Why as [U | (h & t & sz & cur & rv & I & _ & NT)].
          -- congruence.
          -- rewrite (Polled _ _ _ _ _ I) in NT. contradiction.
        * rewrite <- State. reflexivity.
    - unfold wait_for_card, run, bind in R. rewrite F in R.
      unfold ret in R.
      apply pair_equal_spec in R. destruct R as [Out Tr].
      apply Returns_inj in Out.
      apply pair_equal_spec in Out. destruct Out as [Tok State].
      destruct Why as [U | (h & t & sz & cur & rv & I & _)].
      + congruence.
      + rewrite <- Tr in I. destruct Enum as [-> | Enum]; [contradiction|].
        exfalso. exact (enumeration_has_no_poll _ _ _ _ _ _ _ Enum I). }
  split; [exact Forgot|].
  intros next timeout2.
  assert (T : truthy_opt (reader_name self1) = false)
    by (rewrite Forgot; reflexivity).
  destruct (get_readers_enumerates next self1) as (names & enum & G & Enum).
  exists names, enum. split; [exact G|]. split; [exact Enum|].
  pose proof (find_reader_unknown _ _ _ _ T G) as F.
  destruct names as [|r names].
  - unfold wait_for_card, run, bind. rewrite F. reflexivity.
  - rewrite (wait_for_card_polls _ _ _ _ _ F). cbv zeta. cbn [snd].
    eexists. reflexivity.
Qed.

Lemma wait_for_card_rediscovers_witness :
  exists self1,
    reader_name self1 = None
    /\ exists rv,
         snd (run (wait_for_card (service 0 0 uid_resp 0 0x22) self1 500))
         = [EvListReaders 7 false 0; EvListReaders 7 true 0;
            EvGetStatusChange 7 500 (Some "ACR122U") SCARD_STATE_UNAWARE rv].
Proof.
  set (first := service 0 0 uid_resp 0 0x8).
  destruct (run (wait_for_card first watching 500)) as [out tr1] eqn:R.
  vm_compute in R. inversion R as [[O T]]. clear R.
  match type of O with
  | Returns (_, ?s) = _ => exists s
  end.
  match goal with
  | |- reader_name ?s = None /\ _ =>
      destruct (wait_for_card_rediscovers first watching s 500
                  (Some "unavailable")
                  [EvGetStatusChange 7 500 (Some "ACR122U") 0x12 0])
        as [Forgot Next];
      [ vm_compute; reflexivity | left; reflexivity | ]
  end.
  split; [exact Forgot|].
  destruct (Next (service 0 0 uid_resp 0 0x22) 500)
    as (names & enum & G & _ & W).
  vm_compute in G. inversion G; subst names enum.
  exact W.
Defined.


(** ** Connect failures in the one-shot read *)

(** Masking with [0xFFFFFFFF] is the reduction to an unsigned 32-bit
    value. *)
Lemma mask_is_unsigned (rv : Z) : Z.land rv 0xFFFFFFFF = rv mod 2 ^ 32.
Proof. change 0xFFFFFFFF with (Z.ones 32). apply Z.land_ones. lia. Qed.

(** The "no card" test compares the status modulo [2^32]. *)
Lemma is_no_card_unsigned (rv : Z) :
  is_no_card rv = true
  <-> rv mod 2 ^ 32 = SCARD_W_REMOVED_CARD
      \/ rv mod 2 ^ 32 = SCARD_E_NO_SMARTCARD.
Proof.
  unfold is_no_card. cbv zeta. rewrite mask_is_unsigned.
  rewrite orb_true_iff, !Z.eqb_eq. reflexivity.
Qed.

Lemma no_card_codes_signed :
  is_no_card SCARD_E_NO_SMARTCARD = true
  /\ is_no_card SCARD_W_REMOVED_CARD = true
  /\ is_no_card (as_signed32 SCARD_E_NO_SMARTCARD) = true
  /\ is_no_card (as_signed32 SCARD_W_REMOVED_CARD) = true.
Proof. repeat split. Qed.

(** On Windows a refused connect raises [NoCardDetectedError] exactly for
    the two "no card" codes modulo [2^32], and a [RuntimeError] with the
    code in hexadecimal and decimal otherwise. *)
Lemma windows_connect_failure (lib : Pcsc) (h pcch : Z) (buf reader : string)
  (others : list string) (rv hcard proto : Z) :
  SCardEstablishContext lib SCARD_SCOPE_USER = (0, h) ->
  SCardListReaders_size lib h = (0, pcch) ->
  SCardListReaders lib h (DWORD pcch) = (0, buf) ->
  reader_names buf = reader :: others ->
  SCardConnect lib h reader SCARD_SHARE_SHARED
    (Z.lor SCARD_PROTOCOL_T0 SCARD_PROTOCOL_T1) = (rv, hcard, proto) ->
  rv <> 0 ->
  fst (run (_read_uid_windows lib)) =
  Raises (if is_no_card rv
          then NoCardDetectedError "No smart card present or card removed."
          else RuntimeError ("SCardConnect failed: 0x" ++ format_0X 8 rv
                             ++ " (" ++ str_of_int rv ++ ")")).
Proof.
  intros E S L N C F. unfold _read_uid_windows, is_no_card.
  unfold run, bind, call, try_finally, raise, SCARD_S_SUCCESS.
  rewrite E. cbn. rewrite S. cbn. rewrite L. cbn. rewrite N. cbn.
  rewrite C. cbn.
  destruct (Z.eqb_spec rv 0); [contradiction|]. cbn.
  match goal with
  | |- context [if ?c then _ else _] => destruct c
  end; reflexivity.
Qed.

(** On macOS a refused connect raises a [RuntimeError] whatever the
    code. *)
Lemma macos_connect_failure (utf8_valid : string -> bool) (lib : Pcsc)
  (h pcch : Z) (buf reader : string) (others : list string)
  (rv hcard proto : Z) :
  SCardEstablishContext lib SCARD_SCOPE_USER = (0, h) ->
  SCardListReaders_size lib h = (0, pcch) ->
  SCardListReaders lib h (DWORD pcch) = (0, buf) ->
  forallb utf8_valid (reader_names buf) = true ->
  reader_names buf = reader :: others ->
  SCardConnect lib h reader SCARD_SHARE_SHARED
    (Z.lor SCARD_PROTOCOL_T0 SCARD_PROTOCOL_T1) = (rv, hcard, proto) ->
  rv <> 0 ->
  fst (run (_read_uid_macos utf8_valid lib)) =
  Raises (RuntimeError ("SCardConnect failed: 0x" ++ format_0X 8 rv)).
Proof.
  intros E S L U N C F. unfold _read_uid_macos.
  unfold run, bind, call, try_finally, raise, SCARD_S_SUCCESS.
  rewrite E. cbn. rewrite S. cbn. rewrite L. cbn. rewrite U. cbn.
  rewrite N. cbn. rewrite C. cbn.
  destruct (Z.eqb_spec rv 0); [contradiction|]. reflexivity.
Qed.


(** C2, on macOS. With one reader and a connect refused with the status
    [0x8010000C], the one-shot read on macOS raises a [RuntimeError], where
    the same service on Windows raises [NoCardDetectedError]. *)
Theorem macos_no_card_is_runtime_error (utf8_valid : string -> bool) :
  utf8_valid "ACR122U" = true ->
  fst (run (read_uid_hex utf8_valid "darwin"
              (service SCARD_E_NO_SMARTCARD 0 uid_resp 0 0)))
  = Raises (RuntimeError "SCardConnect failed: 0x8010000C")
  /\ fst (run (read_uid_hex utf8_valid "win32"
                 (service SCARD_E_NO_SMARTCARD 0 uid_resp 0 0)))
     = Raises (NoCardDetectedError "No smart card present or card removed.").
Proof.
  intros U. split.
  - change (read_uid_hex utf8_valid "darwin") with (_read_uid_macos utf8_valid).
    rewrite (macos_connect_failure utf8_valid _ 7 9
               ("ACR122U" ++ String NUL (String NUL ""))
               "ACR122U" [] SCARD_E_NO_SMARTCARD 9 2);
      try reflexivity.
    + change (utf8_valid "ACR122U" && true = true). now rewrite U.
    + discriminate.
  - reflexivity.
Qed.

Lemma macos_no_card_is_runtime_error_witness :
  fst (run (read_uid_hex (fun _ => true) "darwin"
              (service SCARD_E_NO_SMARTCARD 0 uid_resp 0 0)))
  = Raises (RuntimeError "SCardConnect failed: 0x8010000C").
Proof.
  exact (proj1 (macos_no_card_is_runtime_error (fun _ => true) eq_refl)).
Defined.

(** ** The faults of the one-shot read *)

(** *** Reading the status back from a message *)

Lemma hex_value_digits_acc (d : Hexadecimal.uint) (acc : positive) :
  hex_value (Npos acc) (upper (HexadecimalString.NilEmpty.string_of_uint d))
  = Npos (Pos.of_hex_uint_acc d acc).
Proof.
  revert acc.
  induction d; intros acc; cbn [HexadecimalString.NilEmpty.string_of_uint
                                upper hex_value Pos.of_hex_uint_acc];
    try reflexivity;
    rewrite <- IHd; f_equal.
Qed.

Lemma hex_value_digits (d : Hexadecimal.uint) :
  hex_value 0 (upper (HexadecimalString.NilEmpty.string_of_uint d))
  = N.of_hex_uint d.
Proof.
  induction d; cbn [HexadecimalString.NilEmpty.string_of_uint upper hex_value];
    try reflexivity;
    try exact (hex_value_digits_acc d _).
  exact IHd.
Qed.

(** The hexadecimal digits [format_0X] prints for [n] have the value [n]. *)
Lemma hex_value_of_N (n : N) :
  hex_value 0
    (upper (HexadecimalString.NilZero.string_of_uint (N.to_hex_uint n)))
  = n.
Proof.
  rewrite <- (HexadecimalN.Unsigned.of_to n) at 2.
  destruct (N.to_hex_uint n); try apply hex_value_digits. reflexivity.
Qed.

Lemma hex_value_zeros (k : nat) (s : string) :
  hex_value 0 (zeros k ++ s) = hex_value 0 s.
Proof. induction k as [|k IH]; [reflexivity | exact IH]. Qed.

Lemma digits_head (d : Hexadecimal.uint) :
  exists c r,
    upper (HexadecimalString.NilZero.string_of_uint d) = String c r
    /\ Ascii.eqb c "-" = false.
Proof. destruct d; do 2 eexists; split; reflexivity. Qed.

(** The status is read back from its text, whatever its sign and size. *)
Lemma parse_format (width : nat) (z : Z) :
  parse_status (format_0X width z) = z.
Proof.
  unfold format_0X. cbv zeta.
  set (digits := upper (HexadecimalString.NilZero.string_of_uint
                          (N.to_hex_uint (Z.abs_N z)))).
  assert (V : hex_value 0 digits = Z.abs_N z) by apply hex_value_of_N.
  destruct (z <? 0) eqn:S.
  - apply Z.ltb_lt in S. cbn [String.append parse_status].
    change (Ascii.eqb "-" "-") with true. cbn match.
    unfold zfill. rewrite hex_value_zeros, V, N2Z.inj_abs_N. lia.
  - apply Z.ltb_ge in S. unfold zfill.
    assert (P : parse_status (zeros (width - String.length digits) ++ digits)
                = Z.of_N (hex_value 0
                            (zeros (width - String.length digits) ++ digits))).
    { destruct (digits_head (N.to_hex_uint (Z.abs_N z))) as (c & r & E & M).
      fold digits in E.
      destruct (width - String.length digits)%nat as [|k].
      - cbn [zeros String.append]. rewrite E. cbn [parse_status].
        rewrite M. reflexivity.
      - reflexivity. }
    rewrite P, hex_value_zeros, V, N2Z.inj_abs_N. lia.
Qed.

Lemma string_forall_app (p : ascii -> bool) (s1 s2 : string) :
  string_forall p (s1 ++ s2) = string_forall p s1 && string_forall p s2.
Proof.
  induction s1 as [|c r IH]; [reflexivity|].
  cbn [String.append string_forall]. rewrite IH. apply andb_assoc.
Qed.

Lemma digits_no_space (d : Hexadecimal.uint) :
  string_forall not_space
    (upper (HexadecimalString.NilZero.string_of_uint d)) = true.
Proof.
  assert (E : forall x,
             string_forall not_space
               (upper (HexadecimalString.NilEmpty.string_of_uint x)) = true).
  { induction x; cbn [HexadecimalString.NilEmpty.string_of_uint upper
                       string_forall];
      try reflexivity; rewrite IHx; reflexivity. }
  destruct d; try apply E. reflexivity.
Qed.

Lemma zeros_no_space (k : nat) : string_forall not_space (zeros k) = true.
Proof. induction k as [|k IH]; [reflexivity | exact IH]. Qed.

Lemma format_no_space (width : nat) (z : Z) :
  string_forall not_space (format_0X width z) = true.
Proof.
  unfold format_0X, zfill. cbv zeta.
  destruct (z <? 0); rewrite ?string_forall_app, zeros_no_space,
                       digits_no_space; reflexivity.
Qed.

Lemma until_space_stops (s r : string) :
  string_forall not_space s = true ->
  until_space (s ++ String " " r) = s /\ until_space s = s.
Proof.
  induction s as [|c t IH]; [split; reflexivity|].
  cbn [string_forall String.append until_space]. intros H.
  apply andb_true_iff in H. destruct H as [C T].
  unfold not_space in C. apply negb_true_iff in C. rewrite C.
  destruct (IH T) as [-> ->]. split; reflexivity.
Qed.

(** The status a connect message carries, on either platform. *)
Lemma status_of_message (rv : Z) (r : string) :
  parse_status (until_space (format_0X 8 rv ++ String " " r)) = rv
  /\ parse_status (until_space (format_0X 8 rv)) = rv.
Proof.
  destruct (until_space_stops (format_0X 8 rv) r (format_no_space 8 rv))
    as [-> ->].
  split; apply parse_format.
Qed.

Lemma prefix_empty (s : string) : String.prefix "" s = true.
Proof. destruct s; reflexivity. Qed.

Ltac decode_step :=
  match goal with
  | S : (len ?r <? 2) = true |- _ =>
      rewrite (decode_response_short r) by (apply Z.ltb_lt; exact S)
  | S : (len ?r <? 2) = false, B : bytes_eqb (slice ?r _ _) _ = _ |- _ =>
      let data := fresh "data" in
      let a := fresh "sw1" in
      let b := fresh "sw2" in
      let E := fresh "E" in
      destruct (split_trailer r) as (data & a & b & E);
      [ apply Z.ltb_ge; exact S | ];
      rewrite E in B |- *;
      rewrite slice_trailer in B;
      rewrite decode_response_trailer, B
  end.

(** Close a goal on the kind read from a surfaced exception. *)
Ltac read_kind :=
  cbn; rewrite ?prefix_empty;
  try match goal with
    | |- context [until_space (format_0X 8 ?rv ++ String " " ?r)] =>
        rewrite (proj1 (status_of_message rv r))
    | |- context [until_space (format_0X 8 ?rv)] =>
        rewrite (proj2 (status_of_message rv EmptyString))
    end;
  try match goal with
    | B : _ || _ = _ |- context [is_no_card ?rv] =>
        unfold is_no_card; cbv zeta; rewrite B
    end;
  reflexivity.

(** C8. The caller can tell the kinds of fault apart. There is a reading
    of the surfaced exception (its class; for a [RuntimeError] its
    message, and for a refused connect the status in the message) such
    that, on every platform and for every library: every execution of the
    one-shot read that raises has a failing step, whose kind is the one
    read from the exception; and every execution with a failing step
    raises an exception from which its kind is read. Hence two failing
    executions of different kinds, among them SubsystemUnavailable,
    NoReaderFound, NoCardDetected, CardCommandError and ShortResponse,
    surface different exceptions. *)
Theorem one_shot_faults_distinguishable :
  (exists kind_of : exn -> option FaultKind,
     forall (utf8_valid : string -> bool) (platform : string) (lib : Pcsc),
       (forall e,
          fst (run (read_uid_hex utf8_valid platform lib)) = Raises e ->
          exists k,
            failing_step utf8_valid platform lib = Some k
            /\ kind_of e = Some k)
       /\ (forall k,
             failing_step utf8_valid platform lib = Some k ->
             exists e,
               fst (run (read_uid_hex utf8_valid platform lib)) = Raises e
               /\ kind_of e = Some k))
  /\ (forall (utf8_valid : string -> bool) (platform1 platform2 : string)
             (lib1 lib2 : Pcsc) (k1 k2 : FaultKind) (e1 e2 : exn),
        failing_step utf8_valid platform1 lib1 = Some k1 ->
        failing_step utf8_valid platform2 lib2 = Some k2 ->
        fst (run (read_uid_hex utf8_valid platform1 lib1)) = Raises e1 ->
        fst (run (read_uid_hex utf8_valid platform2 lib2)) = Raises e2 ->
        k1 <> k2 -> e1 <> e2).
Proof.
  assert (Sync :
            forall utf8_valid platform lib,
              match failing_step utf8_valid platform lib with
              | Some k =>
                  exists e,
                    fst (run (read_uid_hex utf8_valid platform lib)) = Raises e
                    /\ kind_of_exn e = Some k
              | None =>
                  exists uid,
                    fst (run (read_uid_hex utf8_valid platform lib))
                    = Returns uid
              end).
  { intros utf8_valid platform lib.
    unfold failing_step, read_uid_hex. cbv zeta.
    destruct (startswith platform "win") eqn:W;
      [| destruct (String.eqb platform "darwin") eqn:D ]; cbn [negb andb].
    - unfold _read_uid_windows, is_no_card. unfold_monad. walk.
      all: try decode_step.
      all: first [ eexists; split; [reflexivity | read_kind ]
                 | eexists; reflexivity ].
    - unfold _read_uid_macos, is_no_card. unfold_monad. walk.
      all: try decode_step.
      all: first [ eexists; split; [reflexivity | read_kind ]
                 | eexists; reflexivity ].
    - eexists. split; reflexivity. }
  assert (Recovers :
            forall utf8_valid platform lib k,
              failing_step utf8_valid platform lib = Some k ->
              exists e,
                fst (run (read_uid_hex utf8_valid platform lib)) = Raises e
                /\ kind_of_exn e = Some k).
  { intros utf8_valid platform lib k F.
    pose proof (Sync utf8_valid platform lib) as S. rewrite F in S.
    exact S. }
  split.
  - exists kind_of_exn. intros utf8_valid platform lib. split.
    + intros e R. pose proof (Sync utf8_valid platform lib) as S.
      destruct (failing_step utf8_valid platform lib) as [k|].
      * destruct S as (x & X & K). rewrite R in X. injection X as <-.
        exists k. split; [reflexivity | exact K].
      * destruct S as (uid & U). rewrite R in U. discriminate U.
    + apply Recovers.
  - intros utf8_valid platform1 platform2 lib1 lib2 k1 k2 e1 e2
           F1 F2 R1 R2 N E.
    destruct (Recovers _ _ _ _ F1) as (x1 & X1 & K1).
    destruct (Recovers _ _ _ _ F2) as (x2 & X2 & K2).
    rewrite R1 in X1. rewrite R2 in X2.
    injection X1 as <-. injection X2 as <-. congruence.
Qed.

Lemma one_shot_faults_distinguishable_witness :
  RuntimeError "SCardConnect failed: 0x8010000C"
  <> RuntimeError "Short response"
  /\ exists k,
       failing_step (fun _ => true) "darwin"
         (service SCARD_E_NO_SMARTCARD 0 uid_resp 0 0) = Some k.
Proof.
  destruct one_shot_faults_distinguishable as [[kind_of Reads] Apart].
  split.
  - apply (Apart (fun _ => true) "darwin" "win32"
             (service SCARD_E_NO_SMARTCARD 0 uid_resp 0 0)
             (service 0 0 [x6a] 0 0) NoCardDetected ShortResponse);
      [reflexivity | reflexivity | reflexivity | reflexivity | discriminate].
  - destruct (proj1 (Reads (fun _ => true) "darwin"
                       (service SCARD_E_NO_SMARTCARD 0 uid_resp 0 0))
                (RuntimeError "SCardConnect failed: 0x8010000C") eq_refl)
      as (k & F & _).
    exists k. exact F.
Defined.

(** The reading at work on connect messages: the "no card" status on
    macOS, unsigned and signed, and another status on either platform. *)
Lemma connect_messages_read :
  kind_of_exn (RuntimeError "SCardConnect failed: 0x8010000C")
  = Some NoCardDetected
  /\ kind_of_exn (RuntimeError "SCardConnect failed: 0x-7FEFFFF4")
     = Some NoCardDetected
  /\ kind_of_exn (RuntimeError "SCardConnect failed: 0x00000006")
     = Some RuntimeFailure
  /\ kind_of_exn (RuntimeError "SCardConnect failed: 0x00000006 (6)")
     = Some RuntimeFailure
  /\ format_0X 8 (as_signed32 SCARD_E_NO_SMARTCARD) = "-7FEFFFF4".
Proof. repeat split. Qed.

(** Each of the five kinds arises: the exceptions surfaced on Windows by a
    service without context, without reader, without card, with a rejected
    command and with a one-byte response. *)
Lemma every_kind_arises :
  let one_shot lib := fst (run (read_uid_hex (fun _ => true) "win32" lib)) in
  one_shot no_service
  = Raises (RuntimeError "SCardEstablishContext failed: 0x8010001D")
  /\ one_shot {| SCardEstablishContext := fun _ => (0, 7);
                 SCardListReaders_size := fun _ => (0, 1);
                 SCardListReaders := fun _ _ => (0, String NUL "");
                 SCardConnect := SCardConnect no_service;
                 SCardTransmit := SCardTransmit no_service;
                 SCardGetStatusChange := SCardGetStatusChange no_service |}
     = Raises (RuntimeError "No PC/SC readers found")
  /\ one_shot (service (as_signed32 SCARD_W_REMOVED_CARD) 0 uid_resp 0 0)
     = Raises (NoCardDetectedError "No smart card present or card removed.")
  /\ one_shot (service 0 0 [x6a; x81] 0 0)
     = Raises (RuntimeError "GET_UID failed: SW=6A81")
  /\ one_shot (service 0 0 [x6a] 0 0)
     = Raises (RuntimeError "Short response")
  /\ one_shot (service 0 0 uid_resp 0 0) = Returns "04A23B1C".
Proof. repeat split. Qed.


(** * Further properties of [pcsc_uid.py] *)

(** ** The text of a UID *)

Lemma fromhex_byte (b : byte) (r : string) :
  fromhex (String (upper_hexdigit (Byte.to_N b / 16))
             (String (upper_hexdigit (Byte.to_N b mod 16)) r))
  = match fromhex r with Some bs => Some (b :: bs) | None => None end.
Proof. destruct b; reflexivity. Qed.

(** The command constant is the one the source spells in hexadecimal. *)
Lemma GET_UID_fromhex : fromhex "FF CA 00 00 00" = Some GET_UID.
Proof. reflexivity. Qed.

(** [_hex] loses nothing: [bytes.fromhex] gives back the bytes, and two
    different byte strings have different texts. *)
Theorem _hex_round_trip (b : list byte) :
  fromhex (_hex b) = Some b
  /\ forall b', _hex b = _hex b' -> b = b'.
Proof.
  assert (R : forall x, fromhex (_hex x) = Some x).
  { intros x. rewrite _hex_uppercaseHex.
    induction x as [|y r IH]; [reflexivity|].
    cbn [uppercaseHex]. rewrite fromhex_byte, IH. reflexivity. }
  split; [apply R|].
  intros b' E. pose proof (R b) as Rb. rewrite E, R in Rb. congruence.
Qed.

Lemma upper_hex_digits (b : byte) :
  is_upper_hex (upper_hexdigit (Byte.to_N b / 16)) = true
  /\ is_upper_hex (upper_hexdigit (Byte.to_N b mod 16)) = true.
Proof. destruct b; split; reflexivity. Qed.

Lemma upper_fixes_upper_hex (s : string) :
  string_forall is_upper_hex s = true -> upper s = s.
Proof.
  induction s as [|c r IH]; [reflexivity|]. cbn [string_forall upper].
  intros H. apply andb_true_iff in H. destruct H as [C R].
  rewrite (IH R). f_equal.
  unfold upper_ascii, is_upper_hex in *. cbv zeta in *.
  destruct ((97 <=? N_of_ascii c) && (N_of_ascii c <=? 122))%N eqn:L;
    [|reflexivity].
  exfalso.
  apply andb_true_iff in L. destruct L as [L1 L2].
  apply N.leb_le in L1, L2.
  apply orb_true_iff in C. destruct C as [C|C];
    apply andb_true_iff in C; destruct C as [C1 C2];
    apply N.leb_le in C1, C2; lia.
Qed.

(** The text of [_hex] is made of the characters [0-9A-F] only, so it is
    already in upper case. *)
Theorem _hex_alphabet (b : list byte) :
  string_forall is_upper_hex (_hex b) = true
  /\ upper (_hex b) = _hex b.
Proof.
  assert (A : string_forall is_upper_hex (_hex b) = true).
  { rewrite _hex_uppercaseHex.
    induction b as [|y r IH]; [reflexivity|].
    cbn [uppercaseHex string_forall].
    destruct (upper_hex_digits y) as [-> ->]. exact IH. }
  split; [exact A | now apply upper_fixes_upper_hex].
Qed.

(** ** Reader names *)

Lemma split_pieces (sep : ascii) (s : string) :
  Forall (fun p => string_forall (fun c => negb (Ascii.eqb c sep)) p = true)
    (split sep s)
  /\ split sep s <> [].
Proof.
  induction s as [|c r [IH NE]]; cbn [split].
  - split; [repeat constructor | discriminate].
  - destruct (Ascii.eqb c sep) eqn:E.
    + split; [constructor; [reflexivity | exact IH] | discriminate].
    + destruct (split sep r) as [|h t]; [contradiction|].
      split; [|discriminate].
      inversion IH as [|? ? Hh Ht]; subst.
      constructor; [|exact Ht].
      cbn [string_forall]. rewrite E. exact Hh.
Qed.

Lemma reader_names_proper (buf : string) :
  Forall proper_name (reader_names buf).
Proof.
  unfold reader_names. apply Forall_forall. intros name I.
  apply filter_In in I. destruct I as [I T].
  destruct (split_pieces NUL buf) as [P _].
  rewrite Forall_forall in P. split.
  - intros ->. discriminate.
  - exact (P _ I).
Qed.

(** [_get_readers] always returns; the names it returns are not empty and
    hold no NUL; when either [SCardListReaders] call fails it returns the
    empty list. *)
Theorem get_readers_names (winscard : Pcsc) (self : NFCReader) :
  exists names tr,
    run (_get_readers winscard self) = (Returns names, tr)
    /\ Forall proper_name names
    /\ (fst (SCardListReaders_size winscard (hcontext self)) <> 0 ->
        names = [] /\ tr = [EvListReaders (hcontext self) false
                              (fst (SCardListReaders_size winscard (hcontext self)))])
    /\ (forall rv, In (EvListReaders (hcontext self) true rv) tr ->
        rv <> 0 -> names = []).
Proof.
  unfold _get_readers. unfold_monad. walk.
  all: do 2 eexists; (split; [reflexivity|]).
  all: split; [ try apply reader_names_proper; try constructor | ].
  all: split; [ intros N; try contradiction; try (split; reflexivity);
                exfalso; apply N; reflexivity | ].
  all: intros rv I N; pick_event I; try reflexivity; try contradiction.
Qed.


Lemma get_readers_names_witness :
  run (_get_readers no_service fresh)
  = (Returns [], [EvListReaders 7 false 0x8010001D]).
Proof.
  destruct (get_readers_names no_service fresh)
    as (names & tr & R & _ & F & _).
  destruct F as [-> ->]; [discriminate|]. exact R.
Defined.

(** ** Life cycle of the [NFCReader] object *)

(** [close] releases the context once: a second [close] calls nothing and
    changes nothing. *)
Theorem close_idempotent (self : NFCReader) :
  exists closed,
    run (close self)
    = (Returns closed,
       if hcontext self =? 0 then []
       else [EvReleaseContext (hcontext self)])
    /\ hcontext closed = 0
    /\ reader_name closed = reader_name self
    /\ reader_states closed = reader_states self
    /\ run (close closed) = (Returns closed, []).
Proof.
  unfold close. unfold_monad.
  destruct (Z.eqb_spec (hcontext self) 0) as [E|N]; cbn.
  - exists self. split; [reflexivity|]. split; [exact E|].
    split; [reflexivity|]. split; [reflexivity|].
    rewrite E. reflexivity.
  - eexists. split; [reflexivity|]. split; [reflexivity|].
    split; [reflexivity|]. split; reflexivity.
Qed.

(** The constructor refuses a platform other than Windows without calling
    the service. An object it returns knows no reader: its watch state is
    consistent, and [read_uid] on it returns [None] without calling the
    service. *)
Theorem init_gives_no_reader (platform : string) (winscard : Pcsc) :
  (startswith platform "win" = false ->
   run (NFCReader_init platform winscard)
   = (Raises (RuntimeError "NFCReader class only supports Windows for now."),
      []))
  /\ (forall self tr,
        run (NFCReader_init platform winscard) = (Returns self, tr) ->
        tr = [EvEstablishContext 0 0 (hcontext self)]
        /\ reader_name self = None
        /\ watch_consistent self
        /\ forall lib, run (read_uid lib self) = (Returns None, [])).
Proof.
  unfold NFCReader_init. unfold_monad. split.
  - intros ->. reflexivity.
  - intros self tr.
    destruct (startswith platform "win"); cbn; [|discriminate].
    destruct (SCardEstablishContext winscard 0) as [rv h].
    cbn. destruct (Z.eqb_spec rv 0) as [->|N]; cbn; [|discriminate].
    intros R. injection R as <- <-.
    split; [reflexivity|]. split; [reflexivity|]. split.
    + intros T. discriminate T.
    + intros lib. reflexivity.
Qed.

Lemma init_gives_no_reader_witness :
  run (read_uid (service 0 0 uid_resp 0 0) fresh) = (Returns None, []).
Proof.
  apply (proj2 (init_gives_no_reader "win32" (service 0 0 uid_resp 0 0))
           fresh [EvEstablishContext 0 0 7]).
  reflexivity.
Defined.

(** ** The watch state across calls of [wait_for_card] *)

Lemma get_readers_proper (winscard : Pcsc) (self : NFCReader) :
  exists names tr,
    _get_readers winscard self [] = (Returns names, tr)
    /\ Forall proper_name names
    /\ is_enumeration (hcontext self) tr.
Proof.
  destruct (get_readers_enumerates winscard self) as (names & tr & G & E).
  exists names, tr. split; [exact G|]. split; [|exact E].
  revert G. unfold _get_readers. unfold_monad. walk.
  all: intros G; injection G as <- _; try constructor.
  apply reader_names_proper.
Qed.

Lemma proper_name_truthy (name : string) :
  proper_name name -> truthy_str name = true.
Proof. intros [N _]. destruct name; [contradiction | reflexivity]. Qed.

(** The object [find_reader] hands to the wait: same context, a reader
    name that is not empty, and a watch state that names it. *)
Lemma find_reader_found (winscard : Pcsc) (self found : NFCReader)
  (enum : list event) :
  find_reader winscard self [] = (Returns (Some found), enum) ->
  watch_consistent self ->
  hcontext found = hcontext self
  /\ truthy_opt (reader_name found) = true
  /\ szReader (reader_states found) = reader_name found
  /\ (enum = [] \/ is_enumeration (hcontext self) enum)
  /\ (enum = [] -> found = self).
Proof.
  intros F C.
  destruct (truthy_opt (reader_name self)) eqn:T.
  - rewrite (find_reader_known _ _ [] T) in F. injection F as <- <-.
    repeat split; auto.
  - destruct (get_readers_proper winscard self) as (names & tr & G & P & E).
    rewrite (find_reader_unknown _ _ _ _ T G) in F.
    destruct names as [|r names]; [discriminate|].
    injection F as <- <-. inversion P as [|? ? Pr _]; subst.
    cbn. rewrite (proper_name_truthy _ Pr).
    repeat split; auto.
    intros ->. destruct E as (rv & rest & E & _). discriminate.
Qed.

(** [wait_for_card] keeps the context handle and the consistency of the
    watch state, and every status-change wait it issues is on this
    context, with the timeout reduced to 32 bits and a reader name that is
    not empty. *)
Theorem wait_for_card_keeps_watch_consistent (winscard : Pcsc)
  (self self' : NFCReader) (timeout_ms : Z) (token : option string)
  (tr : list event) :
  run (wait_for_card winscard self timeout_ms) = (Returns (token, self'), tr) ->
  watch_consistent self ->
  watch_consistent self'
  /\ hcontext self' = hcontext self
  /\ forall h t sz cur rv,
       In (EvGetStatusChange h t sz cur rv) tr ->
       h = hcontext self /\ t = DWORD timeout_ms
       /\ exists name, sz = Some name /\ name <> EmptyString.
Proof.
  intros R C.
  destruct (find_reader_cases winscard self) as (found & enum & F & Enum).
  destruct found as [found|].
  - destruct (find_reader_found _ _ _ _ F C) as (H & T & SZ & _ & _).
    rewrite (wait_for_card_polls _ _ _ _ _ F) in R. cbv zeta in R.
    apply pair_equal_spec in R. destruct R as [Out Tr].
    apply Returns_inj in Out.
    split; [|split].
    + destruct (sc_rv (poll winscard found timeout_ms) =? 0);
        [| destruct (sc_rv (poll winscard found timeout_ms) =? 0x8010000A)];
        apply pair_equal_spec in Out; destruct Out as [_ <-];
        try (match goal with
             | |- context [if ?c then _ else _] => destruct c
             end);
        unfold watch_consistent; cbn; auto; intros; discriminate.
    + destruct (sc_rv (poll winscard found timeout_ms) =? 0);
        [| destruct (sc_rv (poll winscard found timeout_ms) =? 0x8010000A)];
        apply pair_equal_spec in Out; destruct Out as [_ <-];
        try (match goal with
             | |- context [if ?c then _ else _] => destruct c
             end);
        cbn; exact H.
    + intros h t sz cur rv I. rewrite <- Tr in I.
      apply in_app_or in I. destruct I as [I|I].
      * destruct Enum as [-> | Enum]; [contradiction|].
        exfalso. exact (enumeration_has_no_poll _ _ _ _ _ _ _ Enum I).
      * destruct I as [I|[]]. injection I as <- <- <- _ _.
        split; [exact H|]. split; [reflexivity|].
        rewrite SZ. destruct (reader_name found) as [name|]; [|discriminate].
        exists name. split; [reflexivity|]. intros ->. discriminate.
  - unfold wait_for_card, run, bind in R. rewrite F in R. unfold ret in R.
    apply pair_equal_spec in R. destruct R as [Out Tr].
    apply Returns_inj in Out.
    apply pair_equal_spec in Out. destruct Out as [_ <-].
    split; [exact C|]. split; [reflexivity|].
    intros h t sz cur rv I. rewrite <- Tr in I.
    destruct Enum as [-> | Enum]; [contradiction|].
    exfalso. exact (enumeration_has_no_poll _ _ _ _ _ _ _ Enum I).
Qed.

Lemma wait_for_card_keeps_watch_consistent_witness :
  exists self',
    fst (run (wait_for_card (service 0 0 uid_resp 0 0x22) fresh 500))
    = Returns (Some "present", self')
    /\ watch_consistent self' /\ hcontext self' = 7.
Proof.
  destruct (run (wait_for_card (service 0 0 uid_resp 0 0x22) fresh 500))
    as [out tr] eqn:R.
  vm_compute in R. injection R as <- <-.
  eexists. split; [reflexivity|].
  match goal with
  | |- watch_consistent ?s /\ _ =>
      destruct (wait_for_card_keeps_watch_consistent
                  (service 0 0 uid_resp 0 0x22) fresh s 500 (Some "present")
                  [EvListReaders 7 false 0; EvListReaders 7 true 0;
                   EvGetStatusChange 7 500 (Some "ACR122U") 0 0])
        as (C & H & _)
  end.
  - vm_compute. reflexivity.
  - intros T. discriminate T.
  - split; [exact C | exact H].
Defined.


(** After a call that returned "present" or "empty" the reader is still
    known and the current state is the event state just observed, so the
    next call waits at once (no enumeration) on the same reader, with this
    event state as current state. *)
Theorem wait_for_card_feeds_back (first : Pcsc) (self self1 : NFCReader)
  (timeout1 : Z) (token : option string) (tr1 : list event) :
  run (wait_for_card first self timeout1) = (Returns (token, self1), tr1) ->
  watch_consistent self ->
  token = Some "present" \/ token = Some "empty" ->
  truthy_opt (reader_name self1) = true
  /\ dwCurrentState (reader_states self1) = dwEventState (reader_states self1)
  /\ forall (next : Pcsc) (timeout2 : Z),
       snd (run (wait_for_card next self1 timeout2))
       = [EvGetStatusChange (hcontext self) (DWORD timeout2)
            (reader_name self1) (dwEventState (reader_states self1))
            (sc_rv (poll next self1 timeout2))].
Proof.
  intros R C Tok.
  destruct (find_reader_cases first self) as (found & enum & F & Enum).
  destruct found as [found|].
  - destruct (find_reader_found _ _ _ _ F C) as (H & T & SZ & _ & _).
    rewrite (wait_for_card_polls _ _ _ _ _ F) in R. cbv zeta in R.
    set (sc := poll first found timeout1) in *.
    set (e := DWORD (sc_dwEventState sc)) in *.
    apply pair_equal_spec in R. destruct R as [Out _].
    apply Returns_inj in Out.
    destruct (sc_rv sc =? 0).
    + apply pair_equal_spec in Out. destruct Out as [Tk State].
      assert (B : negb (Z.testbit e 5) && negb (Z.testbit e 4)
                  && Z.testbit e 3 = false).
      { rewrite <- Tk in Tok. unfold token_of in Tok.
        destruct (Z.testbit e 5); [reflexivity|].
        destruct (Z.testbit e 4); [reflexivity|].
        destruct (Z.testbit e 3); destruct Tok; discriminate. }
      rewrite B in State. subst self1.
      assert (K : truthy_opt (reader_name found) = true) by exact T.
      split; [exact T|]. split.
      { cbn. apply DWORD_idem. }
      intros next timeout2.
      match goal with
      | |- snd (run (wait_for_card next ?s timeout2)) = _ =>
          rewrite (wait_for_card_polls next s s timeout2 []
                     (find_reader_known next s [] K))
      end.
      cbv zeta. cbn [snd app]. unfold poll. cbn.
      rewrite H, SZ. unfold e. rewrite DWORD_idem. reflexivity.
    + destruct (sc_rv sc =? 0x8010000A);
        apply pair_equal_spec in Out; destruct Out as [Tk _];
        rewrite <- Tk in Tok; destruct Tok; discriminate.
  - unfold wait_for_card, run, bind in R. rewrite F in R. unfold ret in R.
    apply pair_equal_spec in R. destruct R as [Out _].
    apply Returns_inj in Out.
    apply pair_equal_spec in Out. destruct Out as [Tk _].
    rewrite <- Tk in Tok. destruct Tok; discriminate.
Qed.

Lemma wait_for_card_feeds_back_witness :
  exists self1,
    fst (run (wait_for_card (service 0 0 uid_resp 0 0x22) fresh 500))
    = Returns (Some "present", self1)
    /\ snd (run (wait_for_card (service 0 0 uid_resp 0 0x12) self1 500))
       = [EvGetStatusChange 7 500 (Some "ACR122U") 0x22 0].
Proof.
  destruct (run (wait_for_card (service 0 0 uid_resp 0 0x22) fresh 500))
    as [out tr] eqn:R.
  vm_compute in R. injection R as <- <-.
  eexists. split; [reflexivity|].
  match goal with
  | |- snd (run (wait_for_card _ ?s _)) = _ =>
      destruct (wait_for_card_feeds_back
                  (service 0 0 uid_resp 0 0x22) fresh s 500 (Some "present")
                  [EvListReaders 7 false 0; EvListReaders 7 true 0;
                   EvGetStatusChange 7 500 (Some "ACR122U") 0 0])
        as (_ & _ & Next)
  end.
  - vm_compute. reflexivity.
  - intros T. discriminate T.
  - left. reflexivity.
  - exact (Next (service 0 0 uid_resp 0 0x12) 500).
Defined.

(** [wait_for_card] always returns, with one of four tokens; it calls
    nothing but the reader enumeration and the status-change wait, and a
    token other than [None] comes from a wait that returned status 0 as
    its last call. *)
Theorem wait_for_card_outcomes (winscard : Pcsc) (self : NFCReader)
  (timeout_ms : Z) :
  exists token self' tr,
    run (wait_for_card winscard self timeout_ms) = (Returns (token, self'), tr)
    /\ In token [None; Some "present"; Some "empty"; Some "unavailable"]
    /\ forallb is_watch_event tr = true
    /\ (token <> None ->
        exists before h t sz cur,
          tr = (before ++ [EvGetStatusChange h t sz cur 0])%list).
Proof.
  destruct (find_reader_cases winscard self) as (found & enum & F & Enum).
  assert (W : forallb is_watch_event enum = true).
  { destruct Enum as [-> | (rv & rest & -> & A)]; [reflexivity|].
    cbn. apply forallb_forall. intros x I.
    rewrite Forall_forall in A. destruct (A _ I) as (b & rv' & ->).
    reflexivity. }
  destruct found as [found|].
  - rewrite (wait_for_card_polls _ _ _ _ _ F). cbv zeta.
    set (sc := poll winscard found timeout_ms).
    set (e := DWORD (sc_dwEventState sc)).
    destruct (sc_rv sc =? 0) eqn:S.
    + apply Z.eqb_eq in S. rewrite S.
      do 3 eexists. split; [reflexivity|]. split; [|split].
      * unfold token_of.
        destruct (Z.testbit e 5); [cbn; auto|].
        destruct (Z.testbit e 4); [cbn; auto|].
        destruct (Z.testbit e 3); cbn; auto.
      * rewrite forallb_app, W. reflexivity.
      * intros _. do 5 eexists. reflexivity.
    + destruct (sc_rv sc =? 0x8010000A);
        do 3 eexists; (split; [reflexivity|]); (split; [cbn; auto|]);
        (split; [rewrite forallb_app, W; reflexivity|]);
        intros N; contradiction.
  - unfold wait_for_card, run, bind. rewrite F. unfold ret.
    do 3 eexists. split; [reflexivity|]. split; [cbn; auto|].
    split; [exact W|]. intros N. contradiction.
Qed.

Lemma wait_for_card_outcomes_witness :
  exists token self' tr,
    run (wait_for_card (service 0 0 uid_resp 0 0x8) watching 500)
    = (Returns (token, self'), tr)
    /\ forallb is_watch_event tr = true.
Proof.
  destruct (wait_for_card_outcomes (service 0 0 uid_resp 0 0x8) watching 500)
    as (token & self' & tr & R & _ & W & _).
  exists token, self', tr. split; [exact R | exact W].
Defined.

Lemma wait_for_card_timeout_witness :
  exists self',
    fst (run (wait_for_card (service 0 0 uid_resp SCARD_E_TIMEOUT 0x22)
                watching 500))
    = Returns (None, self')
    /\ reader_name self' = Some "ACR122U"
    /\ dwCurrentState (reader_states self') = 0x12.
Proof.
  destruct (wait_for_card_timeout
              (service 0 0 uid_resp SCARD_E_TIMEOUT 0x22) watching 500
              eq_refl eq_refl) as (self' & R & N & _ & C).
  exists self'. split; [exact R|]. split; [exact N | exact C].
Defined.

Lemma read_uid_success_witness :
  run (read_uid (service 0 0 uid_resp 0 0) watching)
  = (Returns (Some "04A23B1C"),
     [EvConnect 7 "ACR122U" 2 3 0 9; EvTransmit 9 GET_UID 0;
      EvDisconnect 9 0]).
Proof.
  apply (read_uid_success (service 0 0 uid_resp 0 0) watching "ACR122U" 9 2
           (uid_resp ++ repeat x00 252) 6 [x04; xa2; x3b; x1c]);
    reflexivity.
Defined.

Lemma windows_connect_failure_witness :
  fst (run (_read_uid_windows
              (service (as_signed32 SCARD_E_NO_SMARTCARD) 0 uid_resp 0 0)))
  = Raises (NoCardDetectedError "No smart card present or card removed.").
Proof.
  apply (windows_connect_failure
           (service (as_signed32 SCARD_E_NO_SMARTCARD) 0 uid_resp 0 0)
           7 9 ("ACR122U" ++ String NUL (String NUL "")) "ACR122U" []
           (as_signed32 SCARD_E_NO_SMARTCARD) 9 2);
    try reflexivity.
  discriminate.
Defined.


(** ** The one-shot read, step by step *)

(** When every step succeeds and the response ends with [90 00], the
    one-shot read returns the text of the data bytes, on both platforms,
    after the same seven calls on the first enumerated reader. *)
Theorem one_shot_success (utf8_valid : string -> bool) (lib : Pcsc)
  (h pcch : Z) (buf reader : string) (others : list string)
  (hcard proto : Z) (raw : list byte) (n : Z) (data : list byte) :
  SCardEstablishContext lib SCARD_SCOPE_USER = (0, h) ->
  SCardListReaders_size lib h = (0, pcch) ->
  SCardListReaders lib h (DWORD pcch) = (0, buf) ->
  reader_names buf = reader :: others ->
  forallb utf8_valid (reader_names buf) = true ->
  SCardConnect lib h reader SCARD_SHARE_SHARED
    (Z.lor SCARD_PROTOCOL_T0 SCARD_PROTOCOL_T1) = (0, hcard, proto) ->
  SCardTransmit lib hcard (DWORD proto) GET_UID = (0, raw, n) ->
  slice raw None (Some (DWORD n)) = (data ++ [x90; x00])%list ->
  run (_read_uid_windows lib)
  = (Returns (_hex data),
     [EvEstablishContext SCARD_SCOPE_USER 0 h;
      EvListReaders h false 0; EvListReaders h true 0;
      EvConnect h reader SCARD_SHARE_SHARED
        (Z.lor SCARD_PROTOCOL_T0 SCARD_PROTOCOL_T1) 0 hcard;
      EvTransmit hcard GET_UID 0;
      EvDisconnect hcard SCARD_LEAVE_CARD;
      EvReleaseContext h])
  /\ run (_read_uid_macos utf8_valid lib) = run (_read_uid_windows lib).
Proof.
  intros E S L N U C X R.
  assert (W : run (_read_uid_windows lib)
              = (Returns (_hex data),
                 [EvEstablishContext SCARD_SCOPE_USER 0 h;
                  EvListReaders h false 0; EvListReaders h true 0;
                  EvConnect h reader SCARD_SHARE_SHARED
                    (Z.lor SCARD_PROTOCOL_T0 SCARD_PROTOCOL_T1) 0 hcard;
                  EvTransmit hcard GET_UID 0;
                  EvDisconnect hcard SCARD_LEAVE_CARD;
                  EvReleaseContext h])).
  { unfold _read_uid_windows.
    unfold run, bind, call, try_finally, raise, lift, SCARD_S_SUCCESS.
    rewrite E. cbn. rewrite S. cbn. rewrite L. cbn. rewrite N. cbn.
    rewrite C. cbn. rewrite X. cbn.
    rewrite R, decode_response_trailer. reflexivity. }
  split; [exact W|]. rewrite W.
  unfold _read_uid_macos.
  unfold run, bind, call, try_finally, raise, lift, SCARD_S_SUCCESS.
  rewrite E. cbn. rewrite S. cbn. rewrite L. cbn. rewrite U. cbn.
  rewrite N. cbn. rewrite C. cbn. rewrite X. cbn.
  rewrite R, decode_response_trailer. reflexivity.
Qed.

Lemma one_shot_success_witness :
  fst (run (_read_uid_windows (service 0 0 uid_resp 0 0)))
  = Returns "04A23B1C"
  /\ run (_read_uid_macos (fun _ => true) (service 0 0 uid_resp 0 0))
     = run (_read_uid_windows (service 0 0 uid_resp 0 0)).
Proof.
  destruct (one_shot_success (fun _ => true) (service 0 0 uid_resp 0 0)
              7 9 ("ACR122U" ++ String NUL (String NUL "")) "ACR122U" []
              9 2 (uid_resp ++ repeat x00 252) 6 [x04; xa2; x3b; x1c]
              eq_refl eq_refl eq_refl eq_refl eq_refl eq_refl eq_refl eq_refl)
    as [W M].
  split; [rewrite W; reflexivity | exact M].
Defined.

(** When the enumerated names are valid UTF-8, the macOS path makes the
    same foreign calls as the Windows path, in the same order; and it has
    the same outcome whenever no connect is refused. *)
Theorem platforms_agree (utf8_valid : string -> bool) (lib : Pcsc) :
  forallb utf8_valid (enumerated lib) = true ->
  snd (run (_read_uid_macos utf8_valid lib))
  = snd (run (_read_uid_windows lib))
  /\ ((forall h reader share protocols rv hcard,
         In (EvConnect h reader share protocols rv hcard)
            (snd (run (_read_uid_windows lib))) -> rv = 0) ->
      fst (run (_read_uid_macos utf8_valid lib))
      = fst (run (_read_uid_windows lib))).
Proof.
  unfold enumerated, _read_uid_macos, _read_uid_windows. unfold_monad.
  destruct (SCardEstablishContext lib SCARD_SCOPE_USER) as [rv0 h] eqn:E.
  cbn [snd].
  destruct (SCardListReaders_size lib h) as [rv1 pcch] eqn:S. cbn [snd].
  destruct (SCardListReaders lib h (DWORD pcch)) as [rv2 buf] eqn:L.
  cbn [snd]. intros U. rewrite U. cbn.
  destruct (Z.eqb_spec rv0 0); subst; cbn;
    [| split; [reflexivity | intros _; reflexivity] ].
  destruct (Z.eqb_spec rv1 0); subst; cbn;
    [| split; [reflexivity | intros _; reflexivity] ].
  destruct (Z.eqb_spec rv2 0); subst; cbn;
    [| split; [reflexivity | intros _; reflexivity] ].
  destruct (reader_names buf) as [|reader others]; cbn;
    [ split; [reflexivity | intros _; reflexivity] | ].
  destruct (SCardConnect lib h reader SCARD_SHARE_SHARED
              (Z.lor SCARD_PROTOCOL_T0 SCARD_PROTOCOL_T1))
    as [[rv3 hcard] proto] eqn:C.
  cbn.
  destruct (Z.eqb_spec rv3 0); subst; cbn.
  - destruct (SCardTransmit lib hcard (DWORD proto) GET_UID)
      as [[rv4 raw] n] eqn:X.
    cbn. destruct (Z.eqb_spec rv4 0); subst; cbn;
      split; try reflexivity; intros _; reflexivity.
  - match goal with
    | |- context [if ?c then _ else _] => destruct c
    end; cbn; (split; [reflexivity|]);
      intros A; exfalso; apply n;
      apply (A h reader SCARD_SHARE_SHARED
               (Z.lor SCARD_PROTOCOL_T0 SCARD_PROTOCOL_T1) rv3 hcard);
      cbn; auto.
Qed.

Lemma platforms_agree_witness :
  snd (run (_read_uid_macos (fun _ => true) (service 6 0 uid_resp 0 0)))
  = snd (run (_read_uid_windows (service 6 0 uid_resp 0 0))).
Proof.
  exact (proj1 (platforms_agree (fun _ => true) (service 6 0 uid_resp 0 0)
                  eq_refl)).
Defined.

(** When the context cannot be established, the one-shot read raises with
    the status in the message after this single call: nothing else is
    called and no release is issued for a context that was never
    established. *)
Theorem establish_failure_stops (utf8_valid : string -> bool) (lib : Pcsc)
  (rv h : Z) :
  SCardEstablishContext lib SCARD_SCOPE_USER = (rv, h) ->
  rv <> 0 ->
  run (_read_uid_windows lib)
  = (Raises (RuntimeError
               ("SCardEstablishContext failed: 0x" ++ format_0X 8 rv)),
     [EvEstablishContext SCARD_SCOPE_USER rv h])
  /\ run (_read_uid_macos utf8_valid lib) = run (_read_uid_windows lib).
Proof.
  intros E N.
  unfold _read_uid_windows, _read_uid_macos. unfold_monad.
  rewrite E. cbn.
  destruct (Z.eqb_spec rv 0); [contradiction|]. cbn.
  split; reflexivity.
Qed.

Lemma establish_failure_stops_witness :
  run (_read_uid_windows no_service)
  = (Raises (RuntimeError "SCardEstablishContext failed: 0x8010001D"),
     [EvEstablishContext SCARD_SCOPE_USER 0x8010001D 0]).
Proof.
  apply (proj1 (establish_failure_stops (fun _ => true) no_service
                  0x8010001D 0 eq_refl ltac:(discriminate))).
Defined.


(** * Properties of the worker of [server.py] *)

(** ** Traces only grow *)

Ltac close_frame :=
  cbn; rewrite <- ?app_assoc, ?app_nil_r; reflexivity.

Lemma read_uid_frame (lib : Pcsc) (self : NFCReader) (t : list event) :
  read_uid lib self t
  = (fst (run (read_uid lib self)), (t ++ snd (run (read_uid lib self)))%list).
Proof.
  unfold read_uid. unfold_monad.
  destruct (truthy_opt (reader_name self)); cbn; [|close_frame].
  destruct (reader_name self) as [name|]; cbn; [|close_frame].
  walk. all: close_frame.
Qed.

Lemma get_readers_frame (lib : Pcsc) (self : NFCReader) (t : list event) :
  _get_readers lib self t
  = (fst (run (_get_readers lib self)),
     (t ++ snd (run (_get_readers lib self)))%list).
Proof. unfold _get_readers. unfold_monad. walk. all: close_frame. Qed.

Lemma wait_for_card_frame (lib : Pcsc) (self : NFCReader) (timeout_ms : Z)
  (t : list event) :
  wait_for_card lib self timeout_ms t
  = (fst (run (wait_for_card lib self timeout_ms)),
     (t ++ snd (run (wait_for_card lib self timeout_ms)))%list).
Proof.
  unfold wait_for_card, find_reader, run, bind.
  destruct (truthy_opt (reader_name self)); cbn [negb].
  - unfold call, ret. cbn.
    repeat match goal with
           | |- context [if ?c then _ else _] => destruct c
           end; close_frame.
  - rewrite (get_readers_frame lib self t).
    unfold run.
    destruct (_get_readers lib self []) as [[names|e] tr]; cbn [fst snd];
      [|close_frame].
    destruct names as [|r names]; unfold call, ret; cbn; [close_frame|].
    repeat match goal with
           | |- context [if ?c then _ else _] => destruct c
           end; close_frame.
Qed.


Section WorkerProperties.

Variable Json : Type.
Variable truthy : Json -> bool.
Variable get : Json -> string -> option (option Json).

Lemma nfc_turn_frame (lib : Pcsc) (file : mapping_file Json)
  (reader : NFCReader) (last_uid : option string) (t : list event) :
  nfc_turn Json truthy get lib file reader last_uid t
  = (fst (run (nfc_turn Json truthy get lib file reader last_uid)),
     (t ++ snd (run (nfc_turn Json truthy get lib file reader
                       last_uid)))%list).
Proof.
  unfold nfc_turn, run.
  rewrite (wait_for_card_frame lib reader 500 t).
  unfold run.
  destruct (wait_for_card lib reader 500 []) as [[[status r1]|e] tr1];
    cbn [fst snd]; [|close_frame].
  destruct (status_is status "present").
  - rewrite (read_uid_frame lib r1 (t ++ tr1)), (read_uid_frame lib r1 tr1).
    destruct (run (read_uid lib r1)) as [[[u|]|e] tr2]; cbn [fst snd];
      try close_frame.
    destruct (truthy_str u && differs u last_uid); [|close_frame].
    destruct (load_mapping Json file) as [m logged].
    destruct (mapping_get Json get m u) as [[c|]|]; try close_frame.
    destruct (truthy c); close_frame.
  - destruct (status_is status "empty");
      [ destruct last_uid; close_frame | ].
    destruct (status_is status "unavailable"); close_frame.
Qed.

Lemma nfc_turns_frame (worlds : list (Pcsc * mapping_file Json))
  (reader : NFCReader) (last_uid : option string) (t : list event) :
  nfc_turns Json truthy get worlds reader last_uid t
  = (fst (run (nfc_turns Json truthy get worlds reader last_uid)),
     (t ++ snd (run (nfc_turns Json truthy get worlds reader
                       last_uid)))%list).
Proof.
  revert reader last_uid t.
  induction worlds as [|[lib file] rest IH]; intros reader last_uid t.
  - unfold run. cbn. rewrite app_nil_r. reflexivity.
  - unfold run. cbn [nfc_turns]. unfold bind.
    rewrite (nfc_turn_frame lib file reader last_uid t).
    unfold run.
    destruct (nfc_turn Json truthy get lib file reader last_uid [])
      as [[[[r1 l1] a1]|e] tr1];
      cbn [fst snd]; [|close_frame].
    rewrite (IH r1 l1 (t ++ tr1)%list), (IH r1 l1 tr1).
    destruct (run (nfc_turns Json truthy get rest r1 l1))
      as [[[[r2 l2] a2]|e] tr2];
      cbn [fst snd]; unfold ret; close_frame.
Qed.

(** What a turn gives when the wait returned [status] and, for "present",
    [read_uid] returned [uid]. *)
Lemma observe_wait (lib : Pcsc) (reader reader1 : NFCReader)
  (status : option string) :
  fst (run (wait_for_card lib reader 500)) = Returns (status, reader1) ->
  wait_for_card lib reader 500 []
  = (Returns (status, reader1), snd (run (wait_for_card lib reader 500))).
Proof.
  unfold run. destruct (wait_for_card lib reader 500 []) as [o tr].
  cbn. intros ->. reflexivity.
Qed.

Lemma observe_read (lib : Pcsc) (reader1 : NFCReader) (uid : option string)
  (t : list event) :
  fst (run (read_uid lib reader1)) = Returns uid ->
  read_uid lib reader1 t
  = (Returns uid, (t ++ snd (run (read_uid lib reader1)))%list).
Proof. intros R. rewrite read_uid_frame, R. reflexivity. Qed.

(** A card that was not the last one seen and that the mapping file maps
    to a category is announced: the turn remembers its UID and broadcasts
    the category, once. *)
Theorem turn_announces_new_card (lib : Pcsc) (v : Json)
  (reader reader1 : NFCReader) (last_uid : option string) (uid : string)
  (c : Json) :
  fst (run (wait_for_card lib reader 500)) = Returns (Some "present", reader1) ->
  fst (run (read_uid lib reader1)) = Returns (Some uid) ->
  truthy_str uid = true ->
  differs uid last_uid = true ->
  get v uid = Some (Some c) ->
  truthy c = true ->
  fst (run (nfc_turn Json truthy get lib (Loaded v) reader last_uid))
  = Returns (reader1, Some uid,
             [Log (NewUid uid); Log (Matched c uid); Broadcast c]).
Proof.
  intros W R T D G C. unfold run, nfc_turn.
  rewrite (observe_wait _ _ _ _ W). cbn [status_is String.eqb].
  cbn. rewrite (observe_read _ _ _ _ R), T, D. cbn. rewrite G, C.
  reflexivity.
Qed.

(** A card that stays on the reader is not announced again: when the UID
    read is the last one seen, the turn does nothing, whatever the
    mapping file. *)
Theorem turn_ignores_held_card (lib : Pcsc) (file : mapping_file Json)
  (reader reader1 : NFCReader) (uid : string) :
  fst (run (wait_for_card lib reader 500)) = Returns (Some "present", reader1) ->
  fst (run (read_uid lib reader1)) = Returns (Some uid) ->
  fst (run (nfc_turn Json truthy get lib file reader (Some uid)))
  = Returns (reader1, Some uid, []).
Proof.
  intros W R. unfold run, nfc_turn.
  rewrite (observe_wait _ _ _ _ W). cbn.
  rewrite (observe_read _ _ _ _ R). cbn.
  rewrite String.eqb_refl, andb_false_r. reflexivity.
Qed.

(** A newly seen UID is remembered before the mapping is consulted: it is
    remembered even if the file is missing, broken, not an object, or
    does not map the UID; in these cases nothing is broadcast. *)
Theorem turn_remembers_unmapped_card (lib : Pcsc) (file : mapping_file Json)
  (reader reader1 : NFCReader) (last_uid : option string) (uid : string) :
  fst (run (wait_for_card lib reader 500)) = Returns (Some "present", reader1) ->
  fst (run (read_uid lib reader1)) = Returns (Some uid) ->
  truthy_str uid = true ->
  differs uid last_uid = true ->
  exists acts,
    fst (run (nfc_turn Json truthy get lib file reader last_uid))
    = Returns (reader1, Some uid, acts)
    /\ In (Log (NewUid uid)) acts
    /\ ((forall c, mapping_get Json get (fst (load_mapping Json file)) uid
                   = Some (Some c) -> truthy c = false) ->
        broadcasts acts = O).
Proof.
  intros W R T D. unfold run, nfc_turn.
  rewrite (observe_wait _ _ _ _ W). cbn.
  rewrite (observe_read _ _ _ _ R), T, D. cbn.
  destruct (load_mapping Json file) as [m logged] eqn:L. cbn [fst].
  assert (B : broadcasts logged = O).
  { destruct file; injection L as _ <-; reflexivity. }
  assert (BA : forall tail : list (action Json),
             broadcasts (logged ++ tail) = broadcasts tail).
  { intros tail. destruct file; injection L as _ <-; reflexivity. }
  destruct (mapping_get Json get m uid) as [[c|]|] eqn:G.
  - destruct (truthy c) eqn:C.
    + eexists. split; [reflexivity|]. split; [left; reflexivity|].
      intros N. rewrite (N c eq_refl) in C. discriminate.
    + eexists. split; [reflexivity|]. split; [left; reflexivity|].
      intros _. cbn. rewrite BA. reflexivity.
  - eexists. split; [reflexivity|]. split; [left; reflexivity|].
    intros _. cbn. rewrite BA. reflexivity.
  - eexists. split; [reflexivity|]. split; [left; reflexivity|].
    intros _. cbn. rewrite BA. reflexivity.
Qed.

(** Without the token "present" the turn does not try to read: it makes
    no call beyond those of the wait and broadcasts nothing; the token
    "empty" clears the last UID, any other token keeps it. *)
Theorem turn_without_card (lib : Pcsc) (file : mapping_file Json)
  (reader reader1 : NFCReader) (last_uid : option string)
  (status : option string) :
  fst (run (wait_for_card lib reader 500)) = Returns (status, reader1) ->
  status <> Some "present" ->
  exists last' acts,
    run (nfc_turn Json truthy get lib file reader last_uid)
    = (Returns (reader1, last', acts),
       snd (run (wait_for_card lib reader 500)))
    /\ broadcasts acts = O
    /\ (status = Some "empty" -> last' = None)
    /\ (status <> Some "empty" -> last' = last_uid).
Proof.
  intros W N. unfold run at 1. unfold nfc_turn.
  rewrite (observe_wait _ _ _ _ W).
  assert (P : status_is status "present" = false).
  { destruct status as [s|]; [|reflexivity]. cbn.
    destruct (String.eqb_spec s "present"); [subst; contradiction|reflexivity]. }
  rewrite P.
  destruct (status_is status "empty") eqn:E.
  - assert (S : status = Some "empty").
    { destruct status as [s|]; [|discriminate]. cbn in E.
      apply String.eqb_eq in E. now subst. }
    destruct last_uid; do 2 eexists; (split; [reflexivity|]);
      (split; [reflexivity|]); split; auto; intros; contradiction.
  - assert (S : status <> Some "empty").
    { intros ->. discriminate. }
    destruct (status_is status "unavailable");
      do 2 eexists; (split; [reflexivity|]); (split; [reflexivity|]);
      split; auto; intros; contradiction.
Qed.

(** A turn broadcasts at most once, and only in the case of a present card
    whose UID is not empty, is not the last one seen, and is mapped by the
    loaded file to a category that counts as true; its UID is then the one
    remembered. *)
Theorem turn_broadcasts_only_mapped_card (lib : Pcsc)
  (file : mapping_file Json) (reader reader' : NFCReader)
  (last_uid last' : option string) (acts : list (action Json)) :
  fst (run (nfc_turn Json truthy get lib file reader last_uid))
  = Returns (reader', last', acts) ->
  (broadcasts acts <= 1)%nat
  /\ forall c,
       In (Broadcast c) acts ->
       exists uid v,
         fst (run (wait_for_card lib reader 500))
         = Returns (Some "present", reader')
         /\ fst (run (read_uid lib reader')) = Returns (Some uid)
         /\ truthy_str uid = true
         /\ differs uid last_uid = true
         /\ last' = Some uid
         /\ file = Loaded v
         /\ get v uid = Some (Some c)
         /\ truthy c = true.
Proof.
  unfold run at 1. unfold nfc_turn.
  destruct (wait_for_card lib reader 500 []) as [[[status r1]|e] tr1] eqn:W.
  2:{ cbn. intros H. injection H as _ _ <-. split; [cbn; lia|].
      intros c [I|[I|[]]]; discriminate. }
  assert (Wr : fst (run (wait_for_card lib reader 500)) = Returns (status, r1))
    by (unfold run; rewrite W; reflexivity).
  destruct (status_is status "present") eqn:P.
  - assert (S : status = Some "present").
    { destruct status as [s|]; [|discriminate]. cbn in P.
      apply String.eqb_eq in P. now subst. }
    subst status.
    rewrite (read_uid_frame lib r1 tr1).
    destruct (run (read_uid lib r1)) as [[[u|]|e] tr2] eqn:R; cbn [fst snd].
    + assert (Rr : fst (run (read_uid lib r1)) = Returns (Some u))
        by (rewrite R; reflexivity).
      destruct (truthy_str u) eqn:T; cbn [andb].
      * destruct (differs u last_uid) eqn:D.
        -- destruct file as [| |v]; cbn.
           ++ intros H. injection H as <- <- <-. split; [cbn; lia|].
              intros c [I|[I|[I|[]]]]; discriminate.
           ++ intros H. injection H as <- <- <-. split; [cbn; lia|].
              intros c [I|[I|[I|[]]]]; discriminate.
           ++ destruct (get v u) as [[c0|]|] eqn:G.
              ** destruct (truthy c0) eqn:C.
                 --- intros H. injection H as <- <- <-.
                     split; [cbn; lia|].
                     intros c [I|[I|[I|[]]]]; try discriminate.
                     injection I as <-.
                     exists u, v. repeat split; auto.
                 --- intros H. injection H as <- <- <-.
                     split; [cbn; lia|].
                     intros c [I|[I|[]]]; discriminate.
              ** intros H. injection H as <- <- <-. split; [cbn; lia|].
                 intros c [I|[I|[]]]; discriminate.
              ** intros H. injection H as <- <- <-. split; [cbn; lia|].
                 intros c [I|[I|[I|[]]]]; discriminate.
        -- intros H. injection H as <- <- <-. split; [cbn; lia|].
           intros c [].
      * intros H. injection H as <- <- <-. split; [cbn; lia|].
        intros c [].
    + intros H. injection H as <- <- <-. split; [cbn; lia|]. intros c [].
    + intros H. injection H as <- <- <-. split; [cbn; lia|].
      intros c [I|[I|[]]]; discriminate.
  - destruct (status_is status "empty").
    + destruct last_uid; intros H; injection H as <- <- <-;
        (split; [cbn; lia|]); intros c I; cbn in I;
        repeat (destruct I as [I|I]; try discriminate); contradiction.
    + destruct (status_is status "unavailable");
        intros H; injection H as <- <- <-;
        (split; [cbn; lia|]); intros c I; cbn in I;
        repeat (destruct I as [I|I]; try discriminate); contradiction.
Qed.

(** How the turns of the loop chain: the next turn starts from the reader
    object and the last UID the turn before left. *)
Lemma turns_step (lib : Pcsc) (file : mapping_file Json)
  (rest : list (Pcsc * mapping_file Json))
  (reader r1 r2 : NFCReader) (last_uid l1 l2 : option string)
  (a1 a2 : list (action Json)) :
  fst (run (nfc_turn Json truthy get lib file reader last_uid))
  = Returns (r1, l1, a1) ->
  fst (run (nfc_turns Json truthy get rest r1 l1)) = Returns (r2, l2, a2) ->
  fst (run (nfc_turns Json truthy get ((lib, file) :: rest) reader last_uid))
  = Returns (r2, l2, (a1 ++ a2)%list).
Proof.
  intros T1 T2. unfold run at 1. cbn [nfc_turns]. unfold bind.
  rewrite (nfc_turn_frame lib file reader last_uid []), T1.
  rewrite (nfc_turns_frame rest r1 l1), T2. reflexivity.
Qed.

Ltac turn_present W R :=
  unfold run, nfc_turn;
  rewrite (observe_wait _ _ _ _ W); cbn;
  rewrite (observe_read _ _ _ _ R).

(** A card left on the reader over two turns is announced once: the
    second turn adds nothing, whatever the mapping file holds by then. *)
Theorem held_card_announced_once (lib1 lib2 : Pcsc) (v : Json)
  (file2 : mapping_file Json) (reader r1 r2 : NFCReader)
  (last_uid : option string) (uid : string) (c : Json) :
  fst (run (wait_for_card lib1 reader 500)) = Returns (Some "present", r1) ->
  fst (run (read_uid lib1 r1)) = Returns (Some uid) ->
  truthy_str uid = true ->
  differs uid last_uid = true ->
  get v uid = Some (Some c) ->
  truthy c = true ->
  fst (run (wait_for_card lib2 r1 500)) = Returns (Some "present", r2) ->
  fst (run (read_uid lib2 r2)) = Returns (Some uid) ->
  fst (run (nfc_turns Json truthy get [(lib1, Loaded v); (lib2, file2)]
              reader last_uid))
  = Returns (r2, Some uid,
             [Log (NewUid uid); Log (Matched c uid); Broadcast c]).
Proof.
  intros W1 R1 T D G C W2 R2.
  assert (T1 : fst (run (nfc_turn Json truthy get lib1 (Loaded v) reader
                           last_uid))
               = Returns (r1, Some uid,
                          [Log (NewUid uid); Log (Matched c uid);
                           Broadcast c])).
  { turn_present W1 R1. rewrite T, D. cbn. rewrite G, C. reflexivity. }
  assert (T2 : fst (run (nfc_turn Json truthy get lib2 file2 r1 (Some uid)))
               = Returns (r2, Some uid, [])).
  { turn_present W2 R2. cbn.
    rewrite String.eqb_refl, andb_false_r. reflexivity. }
  rewrite (turns_step _ _ _ _ _ _ _ _ _ _ _ T1
             (turns_step _ _ [] _ _ _ _ _ _ _ _ T2 eq_refl)).
  reflexivity.
Qed.

(** Taking the card away and presenting it again announces it again: over
    the turns present, empty, present with the same UID there are two
    broadcasts, separated by the removal. *)
Theorem card_announced_again_after_removal (lib1 lib2 lib3 : Pcsc)
  (v1 v3 : Json) (file2 : mapping_file Json) (reader r1 r2 r3 : NFCReader)
  (last_uid : option string) (uid : string) (c1 c3 : Json) :
  fst (run (wait_for_card lib1 reader 500)) = Returns (Some "present", r1) ->
  fst (run (read_uid lib1 r1)) = Returns (Some uid) ->
  truthy_str uid = true ->
  differs uid last_uid = true ->
  get v1 uid = Some (Some c1) -> truthy c1 = true ->
  fst (run (wait_for_card lib2 r1 500)) = Returns (Some "empty", r2) ->
  fst (run (wait_for_card lib3 r2 500)) = Returns (Some "present", r3) ->
  fst (run (read_uid lib3 r3)) = Returns (Some uid) ->
  get v3 uid = Some (Some c3) -> truthy c3 = true ->
  fst (run (nfc_turns Json truthy get
              [(lib1, Loaded v1); (lib2, file2); (lib3, Loaded v3)]
              reader last_uid))
  = Returns (r3, Some uid,
             [Log (NewUid uid); Log (Matched c1 uid); Broadcast c1;
              Log CardRemoved;
              Log (NewUid uid); Log (Matched c3 uid); Broadcast c3]).
Proof.
  intros W1 R1 T D G1 C1 W2 W3 R3 G3 C3.
  assert (T1 : fst (run (nfc_turn Json truthy get lib1 (Loaded v1) reader
                           last_uid))
               = Returns (r1, Some uid,
                          [Log (NewUid uid); Log (Matched c1 uid);
                           Broadcast c1])).
  { turn_present W1 R1. rewrite T, D. cbn. rewrite G1, C1. reflexivity. }
  assert (T2 : fst (run (nfc_turn Json truthy get lib2 file2 r1 (Some uid)))
               = Returns (r2, None, [Log CardRemoved])).
  { unfold run, nfc_turn. rewrite (observe_wait _ _ _ _ W2). reflexivity. }
  assert (T3 : fst (run (nfc_turn Json truthy get lib3 (Loaded v3) r2 None))
               = Returns (r3, Some uid,
                          [Log (NewUid uid); Log (Matched c3 uid);
                           Broadcast c3])).
  { turn_present W3 R3. rewrite T. cbn. rewrite G3, C3. reflexivity. }
  rewrite (turns_step _ _ _ _ _ _ _ _ _ _ _ T1
             (turns_step _ _ _ _ _ _ _ _ _ _ _ T2
                (turns_step _ _ [] _ _ _ _ _ _ _ _ T3 eq_refl))).
  reflexivity.
Qed.

End WorkerProperties.


Lemma turn_announces_new_card_witness :
  fst (run (nfc_turn string truthy_str demo_get
              (service 0 0 uid_resp 0 0x22) demo_file watching None))
  = Returns (seen 0x22, Some "04A23B1C",
             [Log (NewUid "04A23B1C"); Log (Matched "history" "04A23B1C");
              Broadcast "history"]).
Proof.
  apply (turn_announces_new_card string truthy_str demo_get
           (service 0 0 uid_resp 0 0x22) "history" watching (seen 0x22) None
           "04A23B1C" "history");
    reflexivity.
Defined.

Lemma turn_ignores_held_card_witness :
  fst (run (nfc_turn string truthy_str demo_get
              (service 0 0 uid_resp 0 0x22) demo_file watching
              (Some "04A23B1C")))
  = Returns (seen 0x22, Some "04A23B1C", []).
Proof.
  apply (turn_ignores_held_card string truthy_str demo_get
           (service 0 0 uid_resp 0 0x22) demo_file watching (seen 0x22)
           "04A23B1C");
    reflexivity.
Defined.

Lemma turn_remembers_unmapped_card_witness :
  exists acts,
    fst (run (nfc_turn string truthy_str demo_get
                (service 0 0 uid_resp 0 0x22) FileNotFound watching None))
    = Returns (seen 0x22, Some "04A23B1C", acts)
    /\ broadcasts acts = O.
Proof.
  destruct (turn_remembers_unmapped_card string truthy_str demo_get
              (service 0 0 uid_resp 0 0x22) FileNotFound watching (seen 0x22)
              None "04A23B1C" eq_refl eq_refl eq_refl eq_refl)
    as (acts & R & _ & B).
  exists acts. split; [exact R|]. apply B.
  intros c H. discriminate H.
Defined.

Lemma turn_without_card_witness :
  exists last' acts,
    fst (run (nfc_turn string truthy_str demo_get
                (service 0 0 uid_resp 0 0x12) demo_file watching
                (Some "04A23B1C")))
    = Returns (seen 0x12, last', acts)
    /\ last' = None.
Proof.
  destruct (turn_without_card string truthy_str demo_get
              (service 0 0 uid_resp 0 0x12) demo_file watching (seen 0x12)
              (Some "04A23B1C") (Some "empty") eq_refl
              ltac:(discriminate))
    as (last' & acts & R & _ & E & _).
  exists last', acts. split; [rewrite R; reflexivity | now apply E].
Defined.

Lemma turn_broadcasts_only_mapped_card_witness :
  exists uid v,
    fst (run (read_uid (service 0 0 uid_resp 0 0x22) (seen 0x22)))
    = Returns (Some uid)
    /\ demo_file = Loaded v
    /\ demo_get v uid = Some (Some "history").
Proof.
  destruct (proj2 (turn_broadcasts_only_mapped_card string truthy_str demo_get
              (service 0 0 uid_resp 0 0x22) demo_file watching (seen 0x22)
              None (Some "04A23B1C")
              [Log (NewUid "04A23B1C"); Log (Matched "history" "04A23B1C");
               Broadcast "history"]
              eq_refl) "history")
    as (uid & v & _ & R & _ & _ & _ & F & G & _).
  - right. right. left. reflexivity.
  - exists uid, v. split; [exact R|]. split; [exact F | exact G].
Defined.

Lemma held_card_announced_once_witness :
  fst (run (nfc_turns string truthy_str demo_get
              [(service 0 0 uid_resp 0 0x22, demo_file);
               (service 0 0 uid_resp 0 0x22, demo_file)]
              watching None))
  = Returns (seen 0x22, Some "04A23B1C",
             [Log (NewUid "04A23B1C"); Log (Matched "history" "04A23B1C");
              Broadcast "history"]).
Proof.
  apply (held_card_announced_once string truthy_str demo_get
           (service 0 0 uid_resp 0 0x22) (service 0 0 uid_resp 0 0x22)
           "history" demo_file watching (seen 0x22) (seen 0x22) None
           "04A23B1C" "history");
    reflexivity.
Defined.

Lemma card_announced_again_after_removal_witness :
  exists acts,
    fst (run (nfc_turns string truthy_str demo_get
                [(service 0 0 uid_resp 0 0x22, demo_file);
                 (service 0 0 uid_resp 0 0x12, demo_file);
                 (service 0 0 uid_resp 0 0x22, demo_file)]
                watching None))
    = Returns (seen 0x22, Some "04A23B1C", acts)
    /\ broadcasts acts = 2%nat.
Proof.
  eexists. split.
  - apply (card_announced_again_after_removal string truthy_str demo_get
             (service 0 0 uid_resp 0 0x22) (service 0 0 uid_resp 0 0x12)
             (service 0 0 uid_resp 0 0x22)
             "history" "history" demo_file watching (seen 0x22) (seen 0x12)
             (seen 0x22) None "04A23B1C" "history" "history");
      reflexivity.
  - reflexivity.
Defined.

Lemma _hex_round_trip_witness :
  fromhex (_hex [x04; xa2; x3b; x1c]) = Some [x04; xa2; x3b; x1c]
  /\ [x04; xa2; x3b; x1c] = [x04; xa2; x3b; x1c].
Proof.
  split.
  - exact (proj1 (_hex_round_trip [x04; xa2; x3b; x1c])).
  - exact (proj2 (_hex_round_trip [x04; xa2; x3b; x1c])
             [x04; xa2; x3b; x1c] eq_refl).
Defined.

(** ** The connection manager *)

Lemma list_remove_some (x : Z) (l : list Z) :
  In x l ->
  exists before after,
    l = (before ++ x :: after)%list
    /\ ~ In x before
    /\ list_remove x l = Some (before ++ after)%list.
Proof.
  induction l as [|y r IH]; [contradiction|]. intros I. cbn.
  destruct (Z.eqb_spec y x) as [->|N].
  - exists [], r. repeat split. intros [].
  - destruct I as [E|I]; [contradiction|].
    destruct (IH I) as (before & after & -> & NB & ->).
    exists (y :: before), after. repeat split.
    intros [E|B]; [contradiction | exact (NB B)].
Qed.

Lemma list_remove_none (x : Z) (l : list Z) :
  ~ In x l -> list_remove x l = None.
Proof.
  induction l as [|y r IH]; [reflexivity|]. intros N. cbn.
  destruct (Z.eqb_spec y x) as [->|D].
  - exfalso. apply N. now left.
  - rewrite IH; [reflexivity|]. intros I. apply N. now right.
Qed.

(** [disconnect] raises exactly when the websocket is not among the
    active connections; otherwise it removes its first occurrence and
    nothing else, and logs the new number of connections, one less. *)
Theorem disconnect_removes_one (active : list Z) (websocket : Z) :
  (~ In websocket active -> cm_disconnect active websocket = None)
  /\ (In websocket active ->
      exists before after,
        active = (before ++ websocket :: after)%list
        /\ ~ In websocket before
        /\ cm_disconnect active websocket
           = Some ((before ++ after)%list, len active - 1)).
Proof.
  unfold cm_disconnect. split.
  - intros N. rewrite (list_remove_none _ _ N). reflexivity.
  - intros I.
    destruct (list_remove_some _ _ I) as (before & after & E & NB & R).
    exists before, after. split; [exact E|]. split; [exact NB|].
    rewrite R. subst active. do 2 f_equal.
    rewrite !len_app. unfold len. cbn [List.length]. lia.
Qed.

Lemma disconnect_removes_one_witness :
  cm_disconnect [3; 5] 4 = None
  /\ exists before after,
       [3; 5; 4; 5] = (before ++ 5 :: after)%list
       /\ ~ In 5 before
       /\ cm_disconnect [3; 5; 4; 5] 5
          = Some ((before ++ after)%list, len [3; 5; 4; 5] - 1).
Proof.
  split.
  - apply (proj1 (disconnect_removes_one [3; 5] 4)).
    intros [H|[H|[]]]; discriminate H.
  - apply (proj2 (disconnect_removes_one [3; 5; 4; 5] 5)).
    right. left. reflexivity.
Defined.

(** A websocket session leaves the connections as it found them: after
    [connect] of a websocket that was not yet connected, [disconnect]
    gives back the former list, and a second [disconnect] raises. *)
Theorem connect_then_disconnect (active : list Z) (websocket : Z) :
  ~ In websocket active ->
  cm_connect true active websocket
  = Some ((active ++ [websocket])%list, len active + 1)
  /\ cm_disconnect (active ++ [websocket]) websocket
     = Some (active, len active)
  /\ cm_disconnect active websocket = None.
Proof.
  intros N. unfold cm_connect, cm_disconnect. split; [|split].
  - rewrite len_app. reflexivity.
  - assert (R : list_remove websocket (active ++ [websocket]) = Some active).
    { induction active as [|y r IH]; cbn.
      - rewrite Z.eqb_refl. reflexivity.
      - destruct (Z.eqb_spec y websocket) as [->|D].
        + exfalso. apply N. now left.
        + rewrite IH; [reflexivity|]. intros I. apply N. now right. }
    rewrite R. reflexivity.
  - rewrite (list_remove_none _ _ N). reflexivity.
Qed.

Lemma connect_then_disconnect_witness :
  cm_disconnect ([3; 5] ++ [4]) 4 = Some ([3; 5], 2).
Proof.
  apply (proj1 (proj2 (connect_then_disconnect [3; 5] 4
           ltac:(intros [H|[H|[]]]; discriminate H)))).
Defined.
